(** * Guardian sensor platform (sensor.py): model and verified properties

    A shallow embedding of [sensor.py], the sensor platform of the Elexa
    Guardian integration.  Python objects with mutable attributes become
    records threaded through a small state-and-exception monad; dictionaries
    indexed by run-time strings become [gmap]s, and a dictionary whose
    iteration order is observed becomes an association list.  Coordinators
    are owned by the host and shared between entities, so entities hold a
    coordinator identity and read its current state from a heap. *)

From stdpp Require Import base option list strings gmap.

Local Open Scope string_scope.
Local Open Scope list_scope.

(** ** Python values, exceptions and the execution monad *)

(** The objects a coordinator caches under a key, or a config entry stores.
    Only their identity is observed by this module. *)
Inductive value :=
  | VNone
  | VBool (b : bool)
  | VInt (z : Z)
  | VStr (s : string).

Global Instance value_eq_dec : EqDecision value.
Proof. solve_decision. Defined.

(** A failed subscription [d[k]] raises [KeyError(k)]. *)
Inductive exn :=
  | KeyError (k : string).

Inductive outcome (A : Type) :=
  | Returned (a : A)
  | Raised (e : exn).
Arguments Returned {A} a.
Arguments Raised {A} e.

(** A computation over a mutable state [S]: the state reached is kept also
    when an exception is raised, as assignments made before a [raise] are
    not rolled back in Python. *)
Definition M (S A : Type) : Type := S → outcome A * S.

Global Instance M_ret {S} : MRet (M S) := λ A a s, (Returned a, s).
Global Instance M_bind {S} : MBind (M S) := λ A B f m s,
  match m s with
  | (Returned a, s') => f a s'
  | (Raised e, s') => (Raised e, s')
  end.

Definition get {S} : M S S := λ s, (Returned s, s).
Definition modify {S} (f : S → S) : M S unit := λ s, (Returned tt, f s).
Definition raise {S A} (e : exn) : M S A := λ s, (Raised e, s).

(** [d[k]] on a dictionary with string keys. *)
Definition subscript {S V} (d : gmap string V) (k : string) : M S V :=
  match d !! k with
  | Some v => mret v
  | None => raise (KeyError k)
  end.

(** [for x in xs: body] where the body updates a local variable [acc]. *)
Fixpoint for_each {S A B} (xs : list A) (body : A → B → M S B) (acc : B) : M S B :=
  match xs with
  | [] => mret acc
  | x :: xs' => acc' ← body x acc; for_each xs' body acc'
  end.

(** ** Constants imported by the module

    [sensor.py] imports these names from [homeassistant.const] and from the
    package's own [const.py]; their values are fixed outside [sensor.py], so
    the development is parametric in them.  [str_format t x] stands for
    Python's [t.format(x)]. *)
Class Constants := {
  DEVICE_CLASS_BATTERY : string;
  DEVICE_CLASS_TEMPERATURE : string;
  PERCENTAGE : string;
  TEMP_FAHRENHEIT : string;
  TIME_MINUTES : string;
  API_SYSTEM_DIAGNOSTICS : string;
  API_SYSTEM_ONBOARD_SENSOR_STATUS : string;
  CONF_UID : string;
  SIGNAL_PAIRED_SENSOR_COORDINATOR_ADDED : string;
  str_format : string → value → string;
}.

Definition SENSOR_KIND_BATTERY : string := "battery".
Definition SENSOR_KIND_TEMPERATURE : string := "temperature".
Definition SENSOR_KIND_UPTIME : string := "uptime".

(** ** Host objects the module consumes *)

Module SensorEntityDescription.
(** The keyword arguments the module passes; every other field of the host
    class keeps its default and is never read here. *)
Record t := mk {
  key : string;
  name : string;
  device_class : option string;
  icon : option string;
  native_unit_of_measurement : option string;
}.
End SensorEntityDescription.

Module ConfigEntry.
Record t := mk {
  entry_id : string;
  data : gmap string value;
}.
End ConfigEntry.

Module DataUpdateCoordinator.
(** The part of a coordinator's state this module reads, for a coordinator
    that has completed a fetch: [data] is the mapping it cached.  A host
    coordinator that has never fetched holds no mapping at all; that state,
    in which subscripting [data] is a type error rather than a missing key,
    is outside this record. *)
Record t := mk {
  data : gmap string value;
  last_update_success : bool;
}.
End DataUpdateCoordinator.

(** Coordinators are shared objects: an entity keeps a reference, and the
    host refreshes the object behind it.  [coord_id] is the object identity
    and a [heap] gives every coordinator its current state. *)
Definition coord_id := nat.
Definition heap := coord_id → DataUpdateCoordinator.t.

(** ** Static description tables *)

Definition SENSOR_DESCRIPTION_BATTERY `{Constants} : SensorEntityDescription.t :=
  {| SensorEntityDescription.key := SENSOR_KIND_BATTERY;
     SensorEntityDescription.name := "Battery";
     SensorEntityDescription.device_class := Some DEVICE_CLASS_BATTERY;
     SensorEntityDescription.icon := None;
     SensorEntityDescription.native_unit_of_measurement := Some PERCENTAGE |}.

Definition SENSOR_DESCRIPTION_TEMPERATURE `{Constants} : SensorEntityDescription.t :=
  {| SensorEntityDescription.key := SENSOR_KIND_TEMPERATURE;
     SensorEntityDescription.name := "Temperature";
     SensorEntityDescription.device_class := Some DEVICE_CLASS_TEMPERATURE;
     SensorEntityDescription.icon := None;
     SensorEntityDescription.native_unit_of_measurement := Some TEMP_FAHRENHEIT |}.

Definition SENSOR_DESCRIPTION_UPTIME `{Constants} : SensorEntityDescription.t :=
  {| SensorEntityDescription.key := SENSOR_KIND_UPTIME;
     SensorEntityDescription.name := "Uptime";
     SensorEntityDescription.device_class := None;
     SensorEntityDescription.icon := Some "mdi:timer";
     SensorEntityDescription.native_unit_of_measurement := Some TIME_MINUTES |}.

Definition PAIRED_SENSOR_SENSORS `{Constants} : list SensorEntityDescription.t :=
  [SENSOR_DESCRIPTION_BATTERY; SENSOR_DESCRIPTION_TEMPERATURE].

Definition VALVE_CONTROLLER_SENSORS `{Constants} : list SensorEntityDescription.t :=
  [SENSOR_DESCRIPTION_TEMPERATURE; SENSOR_DESCRIPTION_UPTIME].

(** ** class PairedSensorSensor *)

Module PairedSensorSensor.

Record t := mk {
  _entry : ConfigEntry.t;
  coordinator : coord_id;
  _description : SensorEntityDescription.t;
  _attr_available : bool;
  _attr_native_value : value;
  _attr_native_unit_of_measurement : option string;
}.

Definition set_attr_native_value (v : value) (self : t) : t :=
  {| _entry := _entry self;
     coordinator := coordinator self;
     _description := _description self;
     _attr_available := _attr_available self;
     _attr_native_value := v;
     _attr_native_unit_of_measurement := _attr_native_unit_of_measurement self |}.

Definition set_attr_native_unit_of_measurement (u : option string) (self : t) : t :=
  {| _entry := _entry self;
     coordinator := coordinator self;
     _description := _description self;
     _attr_available := _attr_available self;
     _attr_native_value := _attr_native_value self;
     _attr_native_unit_of_measurement := u |}.

(** Modelled from the spec: [PairedSensorEntity.__init__] lives in the
    package's [__init__.py], which is not among the sources.  It is taken to
    keep its three arguments under the attribute names this file reads
    ([_description], [coordinator]) and to leave the host's class defaults
    (available, no value, no unit) in place. *)
Definition PairedSensorEntity__init__ (entry : ConfigEntry.t)
    (coordinator : coord_id) (description : SensorEntityDescription.t) : t :=
  {| _entry := entry;
     coordinator := coordinator;
     _description := description;
     _attr_available := true;
     _attr_native_value := VNone;
     _attr_native_unit_of_measurement := None |}.

(** [PairedSensorSensor(entry, coordinator, description)]: the base
    initialiser, then the assignment of the unit. *)
Definition __init__ (entry : ConfigEntry.t) (coordinator : coord_id)
    (description : SensorEntityDescription.t) : t :=
  set_attr_native_unit_of_measurement
    (SensorEntityDescription.native_unit_of_measurement description)
    (PairedSensorEntity__init__ entry coordinator description).

Definition _async_update_from_latest_data (h : heap) : M t unit :=
  self ← get;
  if decide (SensorEntityDescription.key (_description self) = SENSOR_KIND_BATTERY) then
    v ← subscript (DataUpdateCoordinator.data (h (coordinator self))) "battery";
    modify (set_attr_native_value v)
  else if decide (SensorEntityDescription.key (_description self) = SENSOR_KIND_TEMPERATURE) then
    v ← subscript (DataUpdateCoordinator.data (h (coordinator self))) "temperature";
    modify (set_attr_native_value v)
  else
    mret tt.

End PairedSensorSensor.

(** ** class ValveControllerSensor *)

Module ValveControllerSensor.

(** [coordinators] is the dictionary from API name to coordinator that the
    package builds once per config entry. *)
Record t := mk {
  _entry : ConfigEntry.t;
  coordinators : gmap string coord_id;
  _description : SensorEntityDescription.t;
  _attr_available : bool;
  _attr_native_value : value;
  _attr_native_unit_of_measurement : option string;
}.

Definition set_attr_available (b : bool) (self : t) : t :=
  {| _entry := _entry self;
     coordinators := coordinators self;
     _description := _description self;
     _attr_available := b;
     _attr_native_value := _attr_native_value self;
     _attr_native_unit_of_measurement := _attr_native_unit_of_measurement self |}.

Definition set_attr_native_value (v : value) (self : t) : t :=
  {| _entry := _entry self;
     coordinators := coordinators self;
     _description := _description self;
     _attr_available := _attr_available self;
     _attr_native_value := v;
     _attr_native_unit_of_measurement := _attr_native_unit_of_measurement self |}.

Definition set_attr_native_unit_of_measurement (u : option string) (self : t) : t :=
  {| _entry := _entry self;
     coordinators := coordinators self;
     _description := _description self;
     _attr_available := _attr_available self;
     _attr_native_value := _attr_native_value self;
     _attr_native_unit_of_measurement := u |}.

(** Modelled from the spec: [ValveControllerEntity.__init__] lives in the
    package's [__init__.py], which is not among the sources.  It is taken to
    keep its three arguments under the attribute names this file reads
    ([_description], [coordinators]) and to leave the host's class defaults
    in place. *)
Definition ValveControllerEntity__init__ (entry : ConfigEntry.t)
    (coordinators : gmap string coord_id)
    (description : SensorEntityDescription.t) : t :=
  {| _entry := entry;
     coordinators := coordinators;
     _description := description;
     _attr_available := true;
     _attr_native_value := VNone;
     _attr_native_unit_of_measurement := None |}.

Definition __init__ (entry : ConfigEntry.t) (coordinators : gmap string coord_id)
    (description : SensorEntityDescription.t) : t :=
  set_attr_native_unit_of_measurement
    (SensorEntityDescription.native_unit_of_measurement description)
    (ValveControllerEntity__init__ entry coordinators description).

(** Modelled from the spec: [async_add_coordinator_update_listener] is a
    method of the base class in the package's [__init__.py], which is not
    among the sources.  A call to it is recorded, with the API it names, in
    the log the method runs against. *)
Definition async_add_coordinator_update_listener (api : string) : M (list string) unit :=
  modify (λ registered, registered ++ [api]).

Definition _async_continue_entity_setup `{Constants} (self : t) : M (list string) unit :=
  if decide (SensorEntityDescription.key (_description self) = SENSOR_KIND_TEMPERATURE) then
    async_add_coordinator_update_listener API_SYSTEM_ONBOARD_SENSOR_STATUS
  else
    mret tt.

Definition _async_update_from_latest_data `{Constants} (h : heap) : M t unit :=
  self ← get;
  if decide (SensorEntityDescription.key (_description self) = SENSOR_KIND_TEMPERATURE) then
    c ← subscript (coordinators self) API_SYSTEM_ONBOARD_SENSOR_STATUS;
    modify (set_attr_available (DataUpdateCoordinator.last_update_success (h c)));;
    self ← get;
    c ← subscript (coordinators self) API_SYSTEM_ONBOARD_SENSOR_STATUS;
    v ← subscript (DataUpdateCoordinator.data (h c)) "temperature";
    modify (set_attr_native_value v)
  else if decide (SensorEntityDescription.key (_description self) = SENSOR_KIND_UPTIME) then
    c ← subscript (coordinators self) API_SYSTEM_DIAGNOSTICS;
    modify (set_attr_available (DataUpdateCoordinator.last_update_success (h c)));;
    self ← get;
    c ← subscript (coordinators self) API_SYSTEM_DIAGNOSTICS;
    v ← subscript (DataUpdateCoordinator.data (h c)) "uptime";
    modify (set_attr_native_value v)
  else
    mret tt.

End ValveControllerSensor.

(** ** Platform setup *)

(** [list[PairedSensorSensor | ValveControllerSensor]]. *)
Inductive sensor :=
  | Valve (s : ValveControllerSensor.t)
  | Paired (s : PairedSensorSensor.t).

(** The closure [add_new_paired_sensor] captures [hass], [entry] and
    [async_add_entities]; [hass] and the host callback are the ambient
    [world] below, so the closure is determined by its [entry]. *)
Inductive callback :=
  | Closure_add_new_paired_sensor (entry : ConfigEntry.t).

(** What [async_dispatcher_connect] returns: the handle that disconnects
    [target] from [signal]. *)
Inductive unsub :=
  | Unsub (signal : string) (target : callback).

(** Calls into the host, in the order they are made. *)
Inductive host_call :=
  | Call_async_dispatcher_connect (signal : string) (target : callback)
  | Call_async_add_entities (new_entities : list sensor) (update_before_add : bool).

(** [hass.data[DOMAIN]]: its keys are the constants [DATA_COORDINATOR],
    [DATA_COORDINATOR_PAIRED_SENSOR] and [DATA_UNSUB_DISPATCHER_CONNECT] of
    [const.py], each holding a dictionary indexed by config-entry id.  The
    paired-sensor dictionary of an entry is iterated, so it keeps its
    insertion order. *)
Record hass_data := mk_hass_data {
  DATA_COORDINATOR : gmap string (gmap string coord_id);
  DATA_COORDINATOR_PAIRED_SENSOR : gmap string (list (string * coord_id));
  DATA_UNSUB_DISPATCHER_CONNECT : gmap string (list unsub);
}.

Record world := mk_world {
  hass : hass_data;
  host_calls : list host_call;
}.

Definition log_call (c : host_call) : M world unit :=
  modify (λ w, {| hass := hass w; host_calls := host_calls w ++ [c] |}).

Definition async_dispatcher_connect (signal : string) (target : callback) : M world unsub :=
  log_call (Call_async_dispatcher_connect signal target);;
  mret (Unsub signal target).

(** The host's entity-addition callback; [update_before_add] is [False]
    when the caller leaves it out. *)
Definition async_add_entities (new_entities : list sensor) (update_before_add : bool)
    : M world unit :=
  log_call (Call_async_add_entities new_entities update_before_add).

(** [d[k]] on an insertion-ordered dictionary. *)
Fixpoint ordered_lookup {V} (d : list (string * V)) (k : string) : option V :=
  match d with
  | [] => None
  | (k', v) :: d' => if decide (k' = k) then Some v else ordered_lookup d' k
  end.

Definition ordered_subscript {S V} (d : list (string * V)) (k : string) : M S V :=
  match ordered_lookup d k with
  | Some v => mret v
  | None => raise (KeyError k)
  end.

(** [d.values()]. *)
Definition values {V} (d : list (string * V)) : list V := snd <$> d.

(** [hass.data[DOMAIN][DATA_UNSUB_DISPATCHER_CONNECT][entry_id].append(x)]
    once the list object has been found: the list is extended in place. *)
Definition append_unsub (entry_id : string) (x : unsub) : M world unit :=
  modify (λ w,
    {| hass :=
         {| DATA_COORDINATOR := DATA_COORDINATOR (hass w);
            DATA_COORDINATOR_PAIRED_SENSOR := DATA_COORDINATOR_PAIRED_SENSOR (hass w);
            DATA_UNSUB_DISPATCHER_CONNECT :=
              alter (λ l, l ++ [x]) entry_id (DATA_UNSUB_DISPATCHER_CONNECT (hass w)) |};
       host_calls := host_calls w |}).

Definition add_new_paired_sensor `{Constants} (entry : ConfigEntry.t) (uid : string)
    : M world unit :=
  w ← get;
  by_uid ← subscript (DATA_COORDINATOR_PAIRED_SENSOR (hass w)) (ConfigEntry.entry_id entry);
  coordinator ← ordered_subscript by_uid uid;
  entities ← for_each PAIRED_SENSOR_SENSORS (λ description entities,
      mret (entities ++ [Paired (PairedSensorSensor.__init__ entry coordinator description)]))
    [];
  async_add_entities entities true.

Definition run_callback `{Constants} (target : callback) (uid : string) : M world unit :=
  match target with
  | Closure_add_new_paired_sensor entry => add_new_paired_sensor entry uid
  end.

(** The receiver of [.append] is evaluated before its argument, so the
    entry's list of unsubscribe handles is looked up before the signal is
    connected. *)
Definition async_setup_entry `{Constants} (entry : ConfigEntry.t) : M world unit :=
  w ← get;
  _ ← subscript (DATA_UNSUB_DISPATCHER_CONNECT (hass w)) (ConfigEntry.entry_id entry);
  uid ← subscript (ConfigEntry.data entry) CONF_UID;
  remove ← async_dispatcher_connect
      (str_format SIGNAL_PAIRED_SENSOR_COORDINATOR_ADDED uid)
      (Closure_add_new_paired_sensor entry);
  append_unsub (ConfigEntry.entry_id entry) remove;;
  sensors ← for_each VALVE_CONTROLLER_SENSORS (λ description sensors,
      w ← get;
      coordinators ← subscript (DATA_COORDINATOR (hass w)) (ConfigEntry.entry_id entry);
      mret (sensors ++ [Valve (ValveControllerSensor.__init__ entry coordinators description)]))
    [];
  w ← get;
  by_uid ← subscript (DATA_COORDINATOR_PAIRED_SENSOR (hass w)) (ConfigEntry.entry_id entry);
  sensors ← for_each (values by_uid) (λ coordinator sensors,
      for_each PAIRED_SENSOR_SENSORS (λ description sensors,
          mret (sensors ++ [Paired (PairedSensorSensor.__init__ entry coordinator description)]))
        sensors)
    sensors;
  async_add_entities sensors false.

(** ** Observations shared by the two entity classes *)

Definition sensor_description (s : sensor) : SensorEntityDescription.t :=
  match s with
  | Valve e => ValveControllerSensor._description e
  | Paired e => PairedSensorSensor._description e
  end.

Definition sensor_unit (s : sensor) : option string :=
  match s with
  | Valve e => ValveControllerSensor._attr_native_unit_of_measurement e
  | Paired e => PairedSensorSensor._attr_native_unit_of_measurement e
  end.

Definition sensor_key (s : sensor) : string :=
  SensorEntityDescription.key (sensor_description s).

(** One operation of this module applied to an entity that already exists:
    an update against the coordinators' current state, or the continuation
    of the entity's setup, which reads the entity and only calls out to the
    base class. *)
Inductive module_step `{Constants} : sensor → sensor → Prop :=
  | step_paired_update (h : heap) (e : PairedSensorSensor.t) :
      module_step (Paired e)
        (Paired (PairedSensorSensor._async_update_from_latest_data h e).2)
  | step_valve_update (h : heap) (e : ValveControllerSensor.t) :
      module_step (Valve e)
        (Valve (ValveControllerSensor._async_update_from_latest_data h e).2)
  | step_valve_continue_setup (e : ValveControllerSensor.t) :
      module_step (Valve e) (Valve e).

(** Two coordinator states agree on what the module's interface names:
    [last_update_success] and [data] at the three sensor kinds. *)
Definition coordinator_agree (c1 c2 : DataUpdateCoordinator.t) : Prop :=
  DataUpdateCoordinator.last_update_success c1 = DataUpdateCoordinator.last_update_success c2
  ∧ DataUpdateCoordinator.data c1 !! "battery" = DataUpdateCoordinator.data c2 !! "battery"
  ∧ DataUpdateCoordinator.data c1 !! "temperature" = DataUpdateCoordinator.data c2 !! "temperature"
  ∧ DataUpdateCoordinator.data c1 !! "uptime" = DataUpdateCoordinator.data c2 !! "uptime".

Definition heap_agree (h1 h2 : heap) : Prop :=
  ∀ c : coord_id, coordinator_agree (h1 c) (h2 c).

(** The entities built for one paired-sensor coordinator, and for the
    valve controller. *)
Definition paired_sensors_for `{Constants} (entry : ConfigEntry.t) (c : coord_id)
    : list sensor :=
  (λ d, Paired (PairedSensorSensor.__init__ entry c d)) <$> PAIRED_SENSOR_SENSORS.

Definition valve_sensors_for `{Constants} (entry : ConfigEntry.t)
    (cs : gmap string coord_id) : list sensor :=
  (λ d, Valve (ValveControllerSensor.__init__ entry cs d)) <$> VALVE_CONTROLLER_SENSORS.

(** ** A concrete installation

    One valve controller with three coordinators behind it, used to run the
    model: coordinator 0 serves the onboard sensor status, 1 the
    diagnostics, 2 a paired sensor; any other coordinator has fetched
    nothing yet.  The constants are sample values. *)
Module Sample.

Definition constants : Constants :=
  {| DEVICE_CLASS_BATTERY := "battery";
     DEVICE_CLASS_TEMPERATURE := "temperature";
     PERCENTAGE := "%";
     TEMP_FAHRENHEIT := "F";
     TIME_MINUTES := "min";
     API_SYSTEM_DIAGNOSTICS := "system_diagnostics";
     API_SYSTEM_ONBOARD_SENSOR_STATUS := "system_onboard_sensor_status";
     CONF_UID := "uid";
     SIGNAL_PAIRED_SENSOR_COORDINATOR_ADDED := "guardian_paired_sensor_coordinator_added";
     str_format := λ t x, match x with VStr s => t ++ "_" ++ s | _ => t end%string |}.

Definition entry : ConfigEntry.t :=
  ConfigEntry.mk "entry1" {[ "uid" := VStr "ABCDEF" ]}.

Definition latest : heap := λ c,
  match c with
  | 0 => DataUpdateCoordinator.mk {[ "temperature" := VInt 71 ]} true
  | 1 => DataUpdateCoordinator.mk {[ "uptime" := VInt 3600 ]} false
  | 2 => DataUpdateCoordinator.mk (<[ "battery" := VInt 95 ]> {[ "temperature" := VInt 68 ]}) true
  | _ => DataUpdateCoordinator.mk ∅ false
  end.

(** The same coordinators, each caching one more field. *)
Definition latest_with_rssi : heap := λ c,
  DataUpdateCoordinator.mk
    (<[ "rssi" := VInt (-60) ]> (DataUpdateCoordinator.data (latest c)))
    (DataUpdateCoordinator.last_update_success (latest c)).

Definition coordinators : gmap string coord_id :=
  <[ "system_onboard_sensor_status" := 0 ]> {[ "system_diagnostics" := 1 ]}.

(** Coordinators that have not fetched anything. *)
Definition stale_coordinators : gmap string coord_id :=
  <[ "system_onboard_sensor_status" := 7 ]> {[ "system_diagnostics" := 8 ]}.

Definition paired_battery : PairedSensorSensor.t :=
  PairedSensorSensor.__init__ entry 2 (@SENSOR_DESCRIPTION_BATTERY constants).
Definition paired_temperature : PairedSensorSensor.t :=
  PairedSensorSensor.__init__ entry 2 (@SENSOR_DESCRIPTION_TEMPERATURE constants).
Definition paired_uptime : PairedSensorSensor.t :=
  PairedSensorSensor.__init__ entry 2 (@SENSOR_DESCRIPTION_UPTIME constants).
Definition stale_paired_battery : PairedSensorSensor.t :=
  PairedSensorSensor.__init__ entry 7 (@SENSOR_DESCRIPTION_BATTERY constants).
Definition stale_paired_temperature : PairedSensorSensor.t :=
  PairedSensorSensor.__init__ entry 7 (@SENSOR_DESCRIPTION_TEMPERATURE constants).

Definition valve_temperature : ValveControllerSensor.t :=
  ValveControllerSensor.__init__ entry coordinators (@SENSOR_DESCRIPTION_TEMPERATURE constants).
Definition valve_uptime : ValveControllerSensor.t :=
  ValveControllerSensor.__init__ entry coordinators (@SENSOR_DESCRIPTION_UPTIME constants).
Definition valve_battery : ValveControllerSensor.t :=
  ValveControllerSensor.__init__ entry coordinators (@SENSOR_DESCRIPTION_BATTERY constants).
Definition stale_valve_temperature : ValveControllerSensor.t :=
  ValveControllerSensor.__init__ entry stale_coordinators
    (@SENSOR_DESCRIPTION_TEMPERATURE constants).
Definition stale_valve_uptime : ValveControllerSensor.t :=
  ValveControllerSensor.__init__ entry stale_coordinators
    (@SENSOR_DESCRIPTION_UPTIME constants).

Definition paired_by_uid : list (string * coord_id) := [("AAA111", 2); ("BBB222", 3)].

Definition at_setup : world :=
  {| hass :=
       {| DATA_COORDINATOR := {[ "entry1" := coordinators ]};
          DATA_COORDINATOR_PAIRED_SENSOR := {[ "entry1" := paired_by_uid ]};
          DATA_UNSUB_DISPATCHER_CONNECT := {[ "entry1" := [] ]} |};
     host_calls := [] |}.

(** Later, a third paired sensor has been discovered. *)
Definition at_signal : world :=
  {| hass :=
       {| DATA_COORDINATOR := {[ "entry1" := coordinators ]};
          DATA_COORDINATOR_PAIRED_SENSOR :=
            {[ "entry1" := paired_by_uid ++ [("CCC333", 4)] ]};
          DATA_UNSUB_DISPATCHER_CONNECT := {[ "entry1" := [] ]} |};
     host_calls := [] |}.

End Sample.

(** ** Further observations on entities *)

Definition sensor_entry (s : sensor) : ConfigEntry.t :=
  match s with
  | Valve e => ValveControllerSensor._entry e
  | Paired e => PairedSensorSensor._entry e
  end.

(** What the entity reads its data through: the coordinator of a paired
    sensor, the API-indexed coordinators of a valve-controller sensor. *)
Definition sensor_binding (s : sensor) : coord_id + gmap string coord_id :=
  match s with
  | Valve e => inr (ValveControllerSensor.coordinators e)
  | Paired e => inl (PairedSensorSensor.coordinator e)
  end.


(** The entity lists handed to the entity-addition callback in a log. *)
Fixpoint added_entities (calls : list host_call) : list (list sensor) :=
  match calls with
  | [] => []
  | Call_async_add_entities l _ :: calls' => l :: added_entities calls'
  | Call_async_dispatcher_connect _ _ :: calls' => added_entities calls'
  end.

(** The world once [async_setup_entry] has connected the signal and stored
    the handle. *)
Definition connected `{Constants} (entry : ConfigEntry.t) (uid : value) (w : world)
    : world :=
  let signal := str_format SIGNAL_PAIRED_SENSOR_COORDINATOR_ADDED uid in
  let target := Closure_add_new_paired_sensor entry in
  {| hass :=
       {| DATA_COORDINATOR := DATA_COORDINATOR (hass w);
          DATA_COORDINATOR_PAIRED_SENSOR := DATA_COORDINATOR_PAIRED_SENSOR (hass w);
          DATA_UNSUB_DISPATCHER_CONNECT :=
            alter (λ l, l ++ [Unsub signal target]) (ConfigEntry.entry_id entry)
              (DATA_UNSUB_DISPATCHER_CONNECT (hass w)) |};
     host_calls := host_calls w ++ [Call_async_dispatcher_connect signal target] |}.

(** Installations in which something the module looks up is missing. *)
Module Degraded.

Definition entry_without_uid : ConfigEntry.t := ConfigEntry.mk "entry1" ∅.

Definition unknown_entry : ConfigEntry.t :=
  ConfigEntry.mk "entry9" {[ "uid" := VStr "ABCDEF" ]}.

(** The entry's coordinators have not been stored yet. *)
Definition without_coordinators : world :=
  {| hass :=
       {| DATA_COORDINATOR := ∅;
          DATA_COORDINATOR_PAIRED_SENSOR := {[ "entry1" := Sample.paired_by_uid ]};
          DATA_UNSUB_DISPATCHER_CONNECT := {[ "entry1" := [] ]} |};
     host_calls := [] |}.

Definition without_paired : world :=
  {| hass :=
       {| DATA_COORDINATOR := {[ "entry1" := Sample.coordinators ]};
          DATA_COORDINATOR_PAIRED_SENSOR := ∅;
          DATA_UNSUB_DISPATCHER_CONNECT := {[ "entry1" := [] ]} |};
     host_calls := [] |}.

(** A valve-controller sensor whose coordinator dictionary is empty. *)
Definition unbound_valve_temperature : ValveControllerSensor.t :=
  ValveControllerSensor.__init__ Sample.entry ∅ (@SENSOR_DESCRIPTION_TEMPERATURE Sample.constants).
Definition unbound_valve_uptime : ValveControllerSensor.t :=
  ValveControllerSensor.__init__ Sample.entry ∅ (@SENSOR_DESCRIPTION_UPTIME Sample.constants).

(** Coordinator 2 has lost its battery reading; the others are as in
    [Sample.latest]. *)
Definition battery_lost : heap := λ c,
  match c with
  | 2 => DataUpdateCoordinator.mk {[ "temperature" := VInt 66 ]} true
  | _ => Sample.latest c
  end.

(** Only the diagnostics coordinator differs from [Sample.latest]. *)
Definition diagnostics_refreshed : heap := λ c,
  match c with
  | 1 => DataUpdateCoordinator.mk {[ "uptime" := VInt 3660 ]} true
  | _ => Sample.latest c
  end.

(** [Sample.latest] with every [last_update_success] flag negated. *)
Definition flags_flipped : heap := λ c,
  DataUpdateCoordinator.mk
    (DataUpdateCoordinator.data (Sample.latest c))
    (negb (DataUpdateCoordinator.last_update_success (Sample.latest c))).

(** The diagnostics coordinator reports success but no longer caches the
    uptime. *)
Definition uptime_lost : heap := λ c,
  match c with
  | 1 => DataUpdateCoordinator.mk ∅ true
  | _ => Sample.latest c
  end.

(** An uptime sensor that was marked unavailable by an earlier update. *)
Definition unavailable_valve_uptime : ValveControllerSensor.t :=
  ValveControllerSensor.set_attr_available false Sample.valve_uptime.

End Degraded.

(** ** Properties *)

(** Unfolds the monad down to matches on dictionary lookups. *)
Ltac run_M :=
  unfold mbind, M_bind, mret, M_ret, get, modify, raise; simpl.

Section Properties.
Context `{Constants}.

Import SensorEntityDescription DataUpdateCoordinator.

Section Paired.
Import PairedSensorSensor.

(** How the update behaves on each of its three paths. *)
Lemma paired_update_battery h e :
  key (_description e) = "battery" →
  _async_update_from_latest_data h e =
    match data (h (coordinator e)) !! "battery" with
    | Some v => (Returned tt, set_attr_native_value v e)
    | None => (Raised (KeyError "battery"), e)
    end.
Proof.
  intros Hk. unfold _async_update_from_latest_data. run_M.
  rewrite decide_True by done.
  unfold subscript. by destruct (data _ !! _).
Qed.

Lemma paired_update_temperature h e :
  key (_description e) = "temperature" →
  _async_update_from_latest_data h e =
    match data (h (coordinator e)) !! "temperature" with
    | Some v => (Returned tt, set_attr_native_value v e)
    | None => (Raised (KeyError "temperature"), e)
    end.
Proof.
  intros Hk. unfold _async_update_from_latest_data. run_M.
  rewrite decide_False by (rewrite Hk; done).
  rewrite decide_True by done.
  unfold subscript. by destruct (data _ !! _).
Qed.

Lemma paired_update_other h e :
  key (_description e) ≠ "battery" →
  key (_description e) ≠ "temperature" →
  _async_update_from_latest_data h e = (Returned tt, e).
Proof.
  intros Hb Ht. unfold _async_update_from_latest_data. run_M.
  by rewrite !decide_False.
Qed.

End Paired.
Section Valve.
Import ValveControllerSensor.

Lemma valve_update_temperature h e :
  key (_description e) = "temperature" →
  _async_update_from_latest_data h e =
    match coordinators e !! API_SYSTEM_ONBOARD_SENSOR_STATUS with
    | None => (Raised (KeyError API_SYSTEM_ONBOARD_SENSOR_STATUS), e)
    | Some c =>
        let e' := set_attr_available (last_update_success (h c)) e in
        match data (h c) !! "temperature" with
        | Some v => (Returned tt, set_attr_native_value v e')
        | None => (Raised (KeyError "temperature"), e')
        end
    end.
Proof.
  intros Hk. unfold _async_update_from_latest_data. run_M.
  rewrite decide_True by done.
  unfold subscript.
  destruct (coordinators e !! _) as [c|] eqn:Hc; run_M; [|done].
  rewrite Hc. run_M. by destruct (data _ !! _).
Qed.

Lemma valve_update_uptime h e :
  key (_description e) = "uptime" →
  _async_update_from_latest_data h e =
    match coordinators e !! API_SYSTEM_DIAGNOSTICS with
    | None => (Raised (KeyError API_SYSTEM_DIAGNOSTICS), e)
    | Some c =>
        let e' := set_attr_available (last_update_success (h c)) e in
        match data (h c) !! "uptime" with
        | Some v => (Returned tt, set_attr_native_value v e')
        | None => (Raised (KeyError "uptime"), e')
        end
    end.
Proof.
  intros Hk. unfold _async_update_from_latest_data. run_M.
  rewrite decide_False by (rewrite Hk; done).
  rewrite decide_True by done.
  unfold subscript.
  destruct (coordinators e !! _) as [c|] eqn:Hc; run_M; [|done].
  rewrite Hc. run_M. by destruct (data _ !! _).
Qed.

Lemma valve_update_other h e :
  key (_description e) ≠ "temperature" →
  key (_description e) ≠ "uptime" →
  _async_update_from_latest_data h e = (Returned tt, e).
Proof.
  intros Ht Hu. unfold _async_update_from_latest_data. run_M.
  by rewrite !decide_False.
Qed.

End Valve.

(** Every description key falls in one of the cases of the lemmas above. *)
Lemma paired_key_cases (k : string) :
  k = "battery" ∨ k = "temperature" ∨ (k ≠ "battery" ∧ k ≠ "temperature").
Proof.
  destruct (decide (k = "battery")); [by left|].
  destruct (decide (k = "temperature")); [by right; left|]. by right; right.
Qed.

Lemma valve_key_cases (k : string) :
  k = "temperature" ∨ k = "uptime" ∨ (k ≠ "temperature" ∧ k ≠ "uptime").
Proof.
  destruct (decide (k = "temperature")); [by left|].
  destruct (decide (k = "uptime")); [by right; left|]. by right; right.
Qed.

(** C1. Updating a paired-sensor entity whose description key is "battery"
    stores [coordinator.data["battery"]] in [_attr_native_value]; with key
    "temperature" it stores [coordinator.data["temperature"]].  The update
    returns normally and every other attribute keeps its value. *)
Theorem C1_paired_update_selects_field
    (h : heap) (e : PairedSensorSensor.t) (v : value) :
  let stored :=
    {| PairedSensorSensor._entry := PairedSensorSensor._entry e;
       PairedSensorSensor.coordinator := PairedSensorSensor.coordinator e;
       PairedSensorSensor._description := PairedSensorSensor._description e;
       PairedSensorSensor._attr_available := PairedSensorSensor._attr_available e;
       PairedSensorSensor._attr_native_value := v;
       PairedSensorSensor._attr_native_unit_of_measurement :=
         PairedSensorSensor._attr_native_unit_of_measurement e |} in
  (key (PairedSensorSensor._description e) = "battery" →
   data (h (PairedSensorSensor.coordinator e)) !! "battery" = Some v →
   PairedSensorSensor._async_update_from_latest_data h e = (Returned tt, stored)
   ∧ PairedSensorSensor._attr_native_value
       (PairedSensorSensor._async_update_from_latest_data h e).2 = v)
  ∧ (key (PairedSensorSensor._description e) = "temperature" →
     data (h (PairedSensorSensor.coordinator e)) !! "temperature" = Some v →
     PairedSensorSensor._async_update_from_latest_data h e = (Returned tt, stored)
     ∧ PairedSensorSensor._attr_native_value
         (PairedSensorSensor._async_update_from_latest_data h e).2 = v).
Proof.
  intros stored. split; intros Hk Hv.
  - by rewrite paired_update_battery, Hv.
  - by rewrite paired_update_temperature, Hv.
Qed.

(** C2. Updating a valve-controller entity with key "temperature" sets
    [_attr_available] to the onboard-sensor-status coordinator's
    [last_update_success] and [_attr_native_value] to its
    [data["temperature"]]; with key "uptime" it does the same from the
    diagnostics coordinator and [data["uptime"]]. *)
Theorem C2_valve_update_selects_coordinator_and_field
    (h : heap) (e : ValveControllerSensor.t) (c : coord_id) (v : value) :
  (key (ValveControllerSensor._description e) = "temperature" →
   ValveControllerSensor.coordinators e !! API_SYSTEM_ONBOARD_SENSOR_STATUS = Some c →
   data (h c) !! "temperature" = Some v →
   ∃ e', ValveControllerSensor._async_update_from_latest_data h e = (Returned tt, e')
     ∧ ValveControllerSensor._attr_available e' = last_update_success (h c)
     ∧ ValveControllerSensor._attr_native_value e' = v)
  ∧ (key (ValveControllerSensor._description e) = "uptime" →
     ValveControllerSensor.coordinators e !! API_SYSTEM_DIAGNOSTICS = Some c →
     data (h c) !! "uptime" = Some v →
     ∃ e', ValveControllerSensor._async_update_from_latest_data h e = (Returned tt, e')
       ∧ ValveControllerSensor._attr_available e' = last_update_success (h c)
       ∧ ValveControllerSensor._attr_native_value e' = v).
Proof.
  split; intros Hk Hc Hv.
  - rewrite valve_update_temperature, Hc by done. simpl. rewrite Hv. eauto.
  - rewrite valve_update_uptime, Hc by done. simpl. rewrite Hv. eauto.
Qed.

(** C5. The update callbacks read coordinator state only through
    [last_update_success] and [data] at "battery", "temperature" and
    "uptime": on two heaps that agree there, an update started from the same
    entity ends with the same outcome and the same entity state. *)
Theorem C5_update_depends_only_on_interface (h1 h2 : heap) :
  heap_agree h1 h2 →
  (∀ e : PairedSensorSensor.t,
     PairedSensorSensor._async_update_from_latest_data h1 e
       = PairedSensorSensor._async_update_from_latest_data h2 e)
  ∧ (∀ e : ValveControllerSensor.t,
       ValveControllerSensor._async_update_from_latest_data h1 e
         = ValveControllerSensor._async_update_from_latest_data h2 e).
Proof.
  intros Hagree. split; intros e.
  - destruct (Hagree (PairedSensorSensor.coordinator e)) as (_ & Hb & Ht & _).
    destruct (paired_key_cases (key (PairedSensorSensor._description e)))
      as [Hk|[Hk|[Hk1 Hk2]]].
    + by rewrite !paired_update_battery, Hb.
    + by rewrite !paired_update_temperature, Ht.
    + by rewrite !paired_update_other.
  - destruct (valve_key_cases (key (ValveControllerSensor._description e)))
      as [Hk|[Hk|[Hk1 Hk2]]].
    + rewrite !valve_update_temperature by done.
      destruct (ValveControllerSensor.coordinators e !! _) as [c|]; [|done].
      destruct (Hagree c) as (Hs & _ & Ht & _). simpl. by rewrite Hs, Ht.
    + rewrite !valve_update_uptime by done.
      destruct (ValveControllerSensor.coordinators e !! _) as [c|]; [|done].
      destruct (Hagree c) as (Hs & _ & _ & Hu). simpl. by rewrite Hs, Hu.
    + by rewrite !valve_update_other.
Qed.

(** C6. When the key selected by the sensor kind is missing from the
    relevant coordinator's data, the update raises [KeyError] for that key
    to its caller and stores no value: [_attr_native_value] is what it was.
    (A valve-controller entity has by then already copied
    [last_update_success] into [_attr_available].) *)
Theorem C6_missing_key_raises
    (h : heap) (p : PairedSensorSensor.t) (e : ValveControllerSensor.t) (c : coord_id) :
  (key (PairedSensorSensor._description p) = "battery" →
   data (h (PairedSensorSensor.coordinator p)) !! "battery" = None →
   PairedSensorSensor._async_update_from_latest_data h p = (Raised (KeyError "battery"), p))
  ∧ (key (PairedSensorSensor._description p) = "temperature" →
     data (h (PairedSensorSensor.coordinator p)) !! "temperature" = None →
     PairedSensorSensor._async_update_from_latest_data h p
       = (Raised (KeyError "temperature"), p))
  ∧ (key (ValveControllerSensor._description e) = "temperature" →
     ValveControllerSensor.coordinators e !! API_SYSTEM_ONBOARD_SENSOR_STATUS = Some c →
     data (h c) !! "temperature" = None →
     ∃ e', ValveControllerSensor._async_update_from_latest_data h e
             = (Raised (KeyError "temperature"), e')
       ∧ ValveControllerSensor._attr_native_value e'
           = ValveControllerSensor._attr_native_value e)
  ∧ (key (ValveControllerSensor._description e) = "uptime" →
     ValveControllerSensor.coordinators e !! API_SYSTEM_DIAGNOSTICS = Some c →
     data (h c) !! "uptime" = None →
     ∃ e', ValveControllerSensor._async_update_from_latest_data h e
             = (Raised (KeyError "uptime"), e')
       ∧ ValveControllerSensor._attr_native_value e'
           = ValveControllerSensor._attr_native_value e).
Proof.
  repeat split.
  - intros Hk Hv. by rewrite paired_update_battery, Hv.
  - intros Hk Hv. by rewrite paired_update_temperature, Hv.
  - intros Hk Hc Hv. rewrite valve_update_temperature, Hc by done. simpl.
    rewrite Hv. eauto.
  - intros Hk Hc Hv. rewrite valve_update_uptime, Hc by done. simpl.
    rewrite Hv. eauto.
Qed.

(** C7. An entity whose description key is none of the two kinds its class
    handles is left exactly as it was by the update, which returns
    normally. *)
Theorem C7_unhandled_key_is_noop
    (h : heap) (p : PairedSensorSensor.t) (e : ValveControllerSensor.t) :
  (key (PairedSensorSensor._description p) ∉ ["battery"; "temperature"] →
   PairedSensorSensor._async_update_from_latest_data h p = (Returned tt, p))
  ∧ (key (ValveControllerSensor._description e) ∉ ["temperature"; "uptime"] →
     ValveControllerSensor._async_update_from_latest_data h e = (Returned tt, e)).
Proof.
  split; intros Hk.
  - apply paired_update_other; set_solver.
  - apply valve_update_other; set_solver.
Qed.

(** What an update can do to the entity: at most the value (and, for a
    valve-controller entity, the availability) is assigned. *)
Lemma paired_update_assigns_value_only h (e : PairedSensorSensor.t) :
  (PairedSensorSensor._async_update_from_latest_data h e).2 = e
  ∨ ∃ v, (PairedSensorSensor._async_update_from_latest_data h e).2
         = PairedSensorSensor.set_attr_native_value v e.
Proof.
  destruct (paired_key_cases (key (PairedSensorSensor._description e)))
    as [Hk|[Hk|[Hk1 Hk2]]].
  - rewrite paired_update_battery by done. destruct (data _ !! _); eauto.
  - rewrite paired_update_temperature by done. destruct (data _ !! _); eauto.
  - rewrite paired_update_other by done. eauto.
Qed.

Lemma valve_update_keeps_unit_and_description h (e : ValveControllerSensor.t) :
  let e' := (ValveControllerSensor._async_update_from_latest_data h e).2 in
  ValveControllerSensor._attr_native_unit_of_measurement e'
    = ValveControllerSensor._attr_native_unit_of_measurement e
  ∧ ValveControllerSensor._description e' = ValveControllerSensor._description e.
Proof.
  destruct (valve_key_cases (key (ValveControllerSensor._description e)))
    as [Hk|[Hk|[Hk1 Hk2]]]; simpl.
  - rewrite valve_update_temperature by done.
    destruct (ValveControllerSensor.coordinators e !! _); [|done].
    simpl. by destruct (data _ !! _).
  - rewrite valve_update_uptime by done.
    destruct (ValveControllerSensor.coordinators e !! _); [|done].
    simpl. by destruct (data _ !! _).
  - by rewrite valve_update_other.
Qed.

Lemma module_step_keeps_unit_and_description (s s' : sensor) :
  module_step s s' →
  sensor_unit s' = sensor_unit s ∧ sensor_description s' = sensor_description s.
Proof.
  destruct 1 as [h e|h e|e]; simpl.
  - by destruct (paired_update_assigns_value_only h e) as [->|[v ->]].
  - apply valve_update_keeps_unit_and_description.
  - done.
Qed.

(** C8. The paired-sensor update never assigns [_attr_available] and never
    reads [last_update_success]: availability after the update is what it
    was before, and two heaps in which the entity's coordinator caches the
    same data give the same outcome and entity, whatever the
    [last_update_success] flags are.  The valve-controller update ties
    availability to the flag: once the coordinator of the selected API is
    found, [_attr_available] is its [last_update_success], also when the
    data lookup then fails; so there are runs in which it changes. *)
Theorem C8_paired_update_keeps_availability :
  (∀ (h : heap) (p : PairedSensorSensor.t),
     PairedSensorSensor._attr_available
       (PairedSensorSensor._async_update_from_latest_data h p).2
     = PairedSensorSensor._attr_available p)
  ∧ (∀ (h1 h2 : heap) (p : PairedSensorSensor.t),
       data (h1 (PairedSensorSensor.coordinator p))
         = data (h2 (PairedSensorSensor.coordinator p)) →
       PairedSensorSensor._async_update_from_latest_data h1 p
       = PairedSensorSensor._async_update_from_latest_data h2 p)
  ∧ (∀ (h : heap) (e : ValveControllerSensor.t) (c : coord_id),
       (key (ValveControllerSensor._description e) = "temperature"
        ∧ ValveControllerSensor.coordinators e !! API_SYSTEM_ONBOARD_SENSOR_STATUS
          = Some c)
       ∨ (key (ValveControllerSensor._description e) = "uptime"
          ∧ ValveControllerSensor.coordinators e !! API_SYSTEM_DIAGNOSTICS = Some c) →
       ValveControllerSensor._attr_available
         (ValveControllerSensor._async_update_from_latest_data h e).2
       = last_update_success (h c))
  ∧ (∃ (h : heap) (e : ValveControllerSensor.t),
       ValveControllerSensor._attr_available
         (ValveControllerSensor._async_update_from_latest_data h e).2
       ≠ ValveControllerSensor._attr_available e).
Proof.
  split_and!.
  - intros h p. by destruct (paired_update_assigns_value_only h p) as [->|[v ->]].
  - intros h1 h2 p Hdata.
    destruct (paired_key_cases (key (PairedSensorSensor._description p)))
      as [Hk|[Hk|[Hk1 Hk2]]].
    + by rewrite !paired_update_battery, Hdata.
    + by rewrite !paired_update_temperature, Hdata.
    + by rewrite !paired_update_other.
  - intros h e c [[Hk Hc]|[Hk Hc]].
    + rewrite valve_update_temperature, Hc by done. simpl.
      by destruct (data (h c) !! _).
    + rewrite valve_update_uptime, Hc by done. simpl.
      by destruct (data (h c) !! _).
  - exists (λ _, DataUpdateCoordinator.mk ∅ false).
    exists (ValveControllerSensor.__init__ (ConfigEntry.mk "entry" ∅)
              {[ API_SYSTEM_ONBOARD_SENSOR_STATUS := 0 ]} SENSOR_DESCRIPTION_TEMPERATURE).
    rewrite valve_update_temperature by done. simpl.
    rewrite lookup_singleton_eq. simpl. rewrite lookup_empty. simpl. done.
Qed.

(** C9. A freshly initialised entity of either class carries its
    description's unit (percent for battery, degrees Fahrenheit for
    temperature, minutes for uptime), and every operation this module
    performs on an existing entity keeps both the unit and the description,
    so the two stay equal along any sequence of operations. *)
Theorem C9_unit_fixed_at_init :
  (∀ entry c d,
     PairedSensorSensor._attr_native_unit_of_measurement
       (PairedSensorSensor.__init__ entry c d) = native_unit_of_measurement d
     ∧ PairedSensorSensor._description (PairedSensorSensor.__init__ entry c d) = d)
  ∧ (∀ entry cs d,
       ValveControllerSensor._attr_native_unit_of_measurement
         (ValveControllerSensor.__init__ entry cs d) = native_unit_of_measurement d
       ∧ ValveControllerSensor._description (ValveControllerSensor.__init__ entry cs d) = d)
  ∧ native_unit_of_measurement SENSOR_DESCRIPTION_BATTERY = Some PERCENTAGE
  ∧ native_unit_of_measurement SENSOR_DESCRIPTION_TEMPERATURE = Some TEMP_FAHRENHEIT
  ∧ native_unit_of_measurement SENSOR_DESCRIPTION_UPTIME = Some TIME_MINUTES
  ∧ (∀ s s' : sensor,
       rtc module_step s s' →
       sensor_unit s = native_unit_of_measurement (sensor_description s) →
       sensor_unit s' = native_unit_of_measurement (sensor_description s')
       ∧ sensor_unit s' = sensor_unit s).
Proof.
  split_and!; try done.
  intros s s' Hsteps.
  induction Hsteps as [s|s1 s2 s3 Hstep _ IH]; [done|].
  intros Hinv. apply module_step_keeps_unit_and_description in Hstep as [Hu Hd].
  destruct IH as [IH1 IH2]; [by rewrite Hu, Hd|].
  split; [done|]. by rewrite IH2.
Qed.

(** C10. Continuing the setup of a valve-controller entity asks for a
    coordinator-update listener on the onboard-sensor-status API exactly
    when the description key is "temperature"; for any other key, and so for
    the uptime sensor, it asks for none. *)
Theorem C10_continue_setup_registers_iff_temperature
    (e : ValveControllerSensor.t) (registered : list string) :
  let r := ValveControllerSensor._async_continue_entity_setup e registered in
  r.1 = Returned tt
  ∧ (key (ValveControllerSensor._description e) = "temperature"
     ↔ r.2 = registered ++ [API_SYSTEM_ONBOARD_SENSOR_STATUS])
  ∧ (key (ValveControllerSensor._description e) ≠ "temperature" ↔ r.2 = registered)
  ∧ (∀ entry cs,
       (ValveControllerSensor._async_continue_entity_setup
          (ValveControllerSensor.__init__ entry cs SENSOR_DESCRIPTION_UPTIME) []).2 = []).
Proof.
  assert (Hne : registered ++ [API_SYSTEM_ONBOARD_SENSOR_STATUS] ≠ registered).
  { intros Heq. apply (f_equal length) in Heq. rewrite length_app in Heq.
    simpl in Heq. lia. }
  unfold ValveControllerSensor._async_continue_entity_setup,
    ValveControllerSensor.async_add_coordinator_update_listener.
  simpl. case_decide as Hk; run_M; split_and!; try split; done.
Qed.

(** A loop whose body only appends to its accumulator appends, in order,
    what each iteration contributes, and leaves the state alone. *)
Lemma for_each_appends {S A B} (f : A → list B) (body : A → list B → M S (list B))
    (xs : list A) :
  (∀ x acc s, body x acc s = (Returned (acc ++ f x), s)) →
  ∀ acc s, for_each xs body acc s = (Returned (acc ++ (xs ≫= f)), s).
Proof.
  intros Hbody. induction xs as [|x xs IH]; intros acc s; simpl.
  - by rewrite app_nil_r.
  - run_M. rewrite Hbody, IH. by rewrite app_assoc.
Qed.

(** In-place modification of a dictionary entry that is present. *)
Lemma alter_lookup_insert {V} (f : V → V) (m : gmap string V) (k : string) (x : V) :
  m !! k = Some x → alter f k m = <[k := f x]> m.
Proof.
  intros Hk. apply map_eq; intros k'. rewrite lookup_alter, lookup_insert.
  case_decide; subst; by rewrite ?Hk.
Qed.

Lemma add_new_paired_sensor_run entry uid w by_uid c :
  DATA_COORDINATOR_PAIRED_SENSOR (hass w) !! ConfigEntry.entry_id entry = Some by_uid →
  ordered_lookup by_uid uid = Some c →
  add_new_paired_sensor entry uid w =
    (Returned tt,
     {| hass := hass w;
        host_calls := host_calls w
          ++ [Call_async_add_entities (paired_sensors_for entry c) true] |}).
Proof.
  intros Hby Hc. unfold add_new_paired_sensor, subscript, ordered_subscript.
  run_M. rewrite Hby. run_M. by rewrite Hc.
Qed.

Lemma async_setup_entry_run entry w unsubs uid cs by_uid :
  DATA_UNSUB_DISPATCHER_CONNECT (hass w) !! ConfigEntry.entry_id entry = Some unsubs →
  ConfigEntry.data entry !! CONF_UID = Some uid →
  DATA_COORDINATOR (hass w) !! ConfigEntry.entry_id entry = Some cs →
  DATA_COORDINATOR_PAIRED_SENSOR (hass w) !! ConfigEntry.entry_id entry = Some by_uid →
  let signal := str_format SIGNAL_PAIRED_SENSOR_COORDINATOR_ADDED uid in
  let target := Closure_add_new_paired_sensor entry in
  async_setup_entry entry w =
    (Returned tt,
     {| hass :=
          {| DATA_COORDINATOR := DATA_COORDINATOR (hass w);
             DATA_COORDINATOR_PAIRED_SENSOR := DATA_COORDINATOR_PAIRED_SENSOR (hass w);
             DATA_UNSUB_DISPATCHER_CONNECT :=
               <[ConfigEntry.entry_id entry := unsubs ++ [Unsub signal target]]>
                 (DATA_UNSUB_DISPATCHER_CONNECT (hass w)) |};
        host_calls := host_calls w
          ++ [Call_async_dispatcher_connect signal target;
              Call_async_add_entities
                (valve_sensors_for entry cs
                   ++ (values by_uid ≫= paired_sensors_for entry)) false] |}).
Proof.
  intros Hun Huid Hcs Hby. simpl.
  unfold async_setup_entry, subscript, async_dispatcher_connect, append_unsub,
    async_add_entities, log_call.
  run_M. repeat (first [rewrite Hun | rewrite Huid | rewrite Hcs | rewrite Hby]; run_M).
  rewrite (for_each_appends (paired_sensors_for entry))
    by (intros c acc s; run_M; by rewrite <- app_assoc).
  simpl. rewrite (alter_lookup_insert _ _ _ _ Hun).
  by rewrite <- !app_assoc.
Qed.

(** C3. Given the host data of the config entry, [async_setup_entry]
    connects the dispatcher signal and then makes one call to the
    entity-addition callback, with one valve-controller
    sensor per description in [VALVE_CONTROLLER_SENSORS] followed by, for
    every paired-sensor coordinator registered for the entry, one
    paired-sensor sensor per description in [PAIRED_SENSOR_SENSORS]; the
    former have keys temperature and uptime, the latter battery and
    temperature. *)
Theorem C3_setup_adds_all_sensors
    (entry : ConfigEntry.t) (w : world) (unsubs : list unsub) (uid : value)
    (cs : gmap string coord_id) (by_uid : list (string * coord_id)) :
  DATA_UNSUB_DISPATCHER_CONNECT (hass w) !! ConfigEntry.entry_id entry = Some unsubs →
  ConfigEntry.data entry !! CONF_UID = Some uid →
  DATA_COORDINATOR (hass w) !! ConfigEntry.entry_id entry = Some cs →
  DATA_COORDINATOR_PAIRED_SENSOR (hass w) !! ConfigEntry.entry_id entry = Some by_uid →
  let valve := (λ d, Valve (ValveControllerSensor.__init__ entry cs d))
                 <$> VALVE_CONTROLLER_SENSORS in
  let paired := λ c, (λ d, Paired (PairedSensorSensor.__init__ entry c d))
                       <$> PAIRED_SENSOR_SENSORS in
  (async_setup_entry entry w).1 = Returned tt
  ∧ host_calls (async_setup_entry entry w).2
    = host_calls w
        ++ [Call_async_dispatcher_connect
              (str_format SIGNAL_PAIRED_SENSOR_COORDINATOR_ADDED uid)
              (Closure_add_new_paired_sensor entry);
            Call_async_add_entities (valve ++ (values by_uid ≫= paired)) false]
  ∧ sensor_key <$> valve = ["temperature"; "uptime"]
  ∧ ∀ c, sensor_key <$> paired c = ["battery"; "temperature"].
Proof.
  intros Hun Huid Hcs Hby valve paired.
  rewrite (async_setup_entry_run entry w unsubs uid cs by_uid) by done.
  simpl. by split_and!.
Qed.

(** C4. [async_setup_entry] connects [add_new_paired_sensor] to the
    paired-sensor-coordinator-added signal of the entry.  When that callback
    later runs with a [uid] under which a coordinator is registered, it makes
    one call to the entity-addition callback, asking for an initial update,
    with one paired-sensor sensor per description in [PAIRED_SENSOR_SENSORS]
    (battery, temperature), each bound to that coordinator. *)
Theorem C4_signal_adds_paired_sensors
    (entry : ConfigEntry.t) (w : world) (unsubs : list unsub) (conf_uid : value)
    (cs : gmap string coord_id) (by_uid0 : list (string * coord_id))
    (w1 : world) (uid : string) (by_uid : list (string * coord_id)) (c : coord_id) :
  DATA_UNSUB_DISPATCHER_CONNECT (hass w) !! ConfigEntry.entry_id entry = Some unsubs →
  ConfigEntry.data entry !! CONF_UID = Some conf_uid →
  DATA_COORDINATOR (hass w) !! ConfigEntry.entry_id entry = Some cs →
  DATA_COORDINATOR_PAIRED_SENSOR (hass w) !! ConfigEntry.entry_id entry = Some by_uid0 →
  DATA_COORDINATOR_PAIRED_SENSOR (hass w1) !! ConfigEntry.entry_id entry = Some by_uid →
  ordered_lookup by_uid uid = Some c →
  let new_entities := (λ d, Paired (PairedSensorSensor.__init__ entry c d))
                        <$> PAIRED_SENSOR_SENSORS in
  ∃ target : callback,
    Call_async_dispatcher_connect
      (str_format SIGNAL_PAIRED_SENSOR_COORDINATOR_ADDED conf_uid) target
      ∈ host_calls (async_setup_entry entry w).2
    ∧ run_callback target uid w1
      = (Returned tt,
         {| hass := hass w1;
            host_calls := host_calls w1 ++ [Call_async_add_entities new_entities true] |})
    ∧ sensor_key <$> new_entities = ["battery"; "temperature"]
    ∧ Forall (λ s, ∃ p, s = Paired p ∧ PairedSensorSensor.coordinator p = c) new_entities.
Proof.
  intros Hun Huid Hcs Hby0 Hby Hc new_entities.
  exists (Closure_add_new_paired_sensor entry). split_and!.
  - rewrite (async_setup_entry_run entry w unsubs conf_uid cs by_uid0) by done.
    simpl. set_solver.
  - simpl. by rewrite (add_new_paired_sensor_run entry uid w1 by_uid c).
  - done.
  - repeat constructor; eauto.
Qed.

(** *** Further properties of the update callbacks *)

(** What a valve-controller update can do to the entity. *)
Lemma valve_update_assigns_available_then_value h (e : ValveControllerSensor.t) :
  (ValveControllerSensor._async_update_from_latest_data h e).2 = e
  ∨ (∃ b, (ValveControllerSensor._async_update_from_latest_data h e).2
          = ValveControllerSensor.set_attr_available b e)
  ∨ (∃ b v, (ValveControllerSensor._async_update_from_latest_data h e).2
            = ValveControllerSensor.set_attr_native_value v
                (ValveControllerSensor.set_attr_available b e)).
Proof.
  destruct (valve_key_cases (key (ValveControllerSensor._description e)))
    as [Hk|[Hk|[Hk1 Hk2]]].
  - rewrite valve_update_temperature by done.
    destruct (ValveControllerSensor.coordinators e !! _); [|by left].
    simpl. destruct (data _ !! _); eauto.
  - rewrite valve_update_uptime by done.
    destruct (ValveControllerSensor.coordinators e !! _); [|by left].
    simpl. destruct (data _ !! _); eauto.
  - rewrite valve_update_other by done. by left.
Qed.

(** X1. A valve-controller update whose API has no coordinator in
    [self.coordinators] raises [KeyError] for the API name before anything
    is assigned: the entity is exactly as it was. *)
Theorem X1_valve_update_without_coordinator (h : heap) (e : ValveControllerSensor.t) :
  (key (ValveControllerSensor._description e) = "temperature" →
   ValveControllerSensor.coordinators e !! API_SYSTEM_ONBOARD_SENSOR_STATUS = None →
   ValveControllerSensor._async_update_from_latest_data h e
     = (Raised (KeyError API_SYSTEM_ONBOARD_SENSOR_STATUS), e))
  ∧ (key (ValveControllerSensor._description e) = "uptime" →
     ValveControllerSensor.coordinators e !! API_SYSTEM_DIAGNOSTICS = None →
     ValveControllerSensor._async_update_from_latest_data h e
       = (Raised (KeyError API_SYSTEM_DIAGNOSTICS), e)).
Proof.
  split; intros Hk Hc.
  - by rewrite valve_update_temperature, Hc.
  - by rewrite valve_update_uptime, Hc.
Qed.

(** X2. Updating twice against the same coordinator state is the same as
    updating once, in outcome and in entity state, for both classes. *)
Theorem X2_update_idempotent (h : heap) :
  (∀ p : PairedSensorSensor.t,
     PairedSensorSensor._async_update_from_latest_data h
       (PairedSensorSensor._async_update_from_latest_data h p).2
     = PairedSensorSensor._async_update_from_latest_data h p)
  ∧ (∀ e : ValveControllerSensor.t,
       ValveControllerSensor._async_update_from_latest_data h
         (ValveControllerSensor._async_update_from_latest_data h e).2
       = ValveControllerSensor._async_update_from_latest_data h e).
Proof.
  split.
  - intros p.
    destruct (paired_key_cases (key (PairedSensorSensor._description p)))
      as [Hk|[Hk|[Hk1 Hk2]]].
    + rewrite (paired_update_battery h p) by done.
      destruct (data _ !! _) as [v|] eqn:Hv; simpl;
        rewrite paired_update_battery by done; simpl; by rewrite Hv.
    + rewrite (paired_update_temperature h p) by done.
      destruct (data _ !! _) as [v|] eqn:Hv; simpl;
        rewrite paired_update_temperature by done; simpl; by rewrite Hv.
    + rewrite (paired_update_other h p) by done. simpl. by rewrite paired_update_other.
  - intros e.
    destruct (valve_key_cases (key (ValveControllerSensor._description e)))
      as [Hk|[Hk|[Hk1 Hk2]]].
    + rewrite (valve_update_temperature h e) by done.
      destruct (ValveControllerSensor.coordinators e !! _) as [c|] eqn:Hc; simpl.
      * destruct (data _ !! _) as [v|] eqn:Hv; simpl;
          rewrite valve_update_temperature by done; simpl; by rewrite Hc, Hv.
      * rewrite valve_update_temperature by done. by rewrite Hc.
    + rewrite (valve_update_uptime h e) by done.
      destruct (ValveControllerSensor.coordinators e !! _) as [c|] eqn:Hc; simpl.
      * destruct (data _ !! _) as [v|] eqn:Hv; simpl;
          rewrite valve_update_uptime by done; simpl; by rewrite Hc, Hv.
      * rewrite valve_update_uptime by done. by rewrite Hc.
    + rewrite (valve_update_other h e) by done. simpl. by rewrite valve_update_other.
Qed.

(** X3. The latest successful update wins: when an update against [h2]
    returns normally, running it after an update against any earlier state
    [h1] (successful or not) ends in the same entity as running it alone. *)
Theorem X3_last_successful_update_wins (h1 h2 : heap) :
  (∀ p : PairedSensorSensor.t,
     (PairedSensorSensor._async_update_from_latest_data h2 p).1 = Returned tt →
     PairedSensorSensor._async_update_from_latest_data h2
       (PairedSensorSensor._async_update_from_latest_data h1 p).2
     = PairedSensorSensor._async_update_from_latest_data h2 p)
  ∧ (∀ e : ValveControllerSensor.t,
       (ValveControllerSensor._async_update_from_latest_data h2 e).1 = Returned tt →
       ValveControllerSensor._async_update_from_latest_data h2
         (ValveControllerSensor._async_update_from_latest_data h1 e).2
       = ValveControllerSensor._async_update_from_latest_data h2 e).
Proof.
  split.
  - intros p Hret.
    destruct (paired_key_cases (key (PairedSensorSensor._description p)))
      as [Hk|[Hk|[Hk1 Hk2]]].
    + rewrite (paired_update_battery h2 p) in Hret |- * by done.
      destruct (data (h2 _) !! _) as [v2|] eqn:Hv2; [|done].
      destruct (paired_update_assigns_value_only h1 p) as [->|[v1 ->]].
      * by rewrite paired_update_battery, Hv2.
      * rewrite paired_update_battery by done. simpl. by rewrite Hv2.
    + rewrite (paired_update_temperature h2 p) in Hret |- * by done.
      destruct (data (h2 _) !! _) as [v2|] eqn:Hv2; [|done].
      destruct (paired_update_assigns_value_only h1 p) as [->|[v1 ->]].
      * by rewrite paired_update_temperature, Hv2.
      * rewrite paired_update_temperature by done. simpl. by rewrite Hv2.
    + rewrite (paired_update_other h1 p) by done. simpl. by rewrite paired_update_other.
  - intros e Hret.
    destruct (valve_key_cases (key (ValveControllerSensor._description e)))
      as [Hk|[Hk|[Hk1 Hk2]]].
    + rewrite (valve_update_temperature h2 e) in Hret |- * by done.
      destruct (ValveControllerSensor.coordinators e !! _) as [c|] eqn:Hc; [|done].
      simpl in *. destruct (data (h2 c) !! _) as [v2|] eqn:Hv2; [|done].
      destruct (valve_update_assigns_available_then_value h1 e)
        as [->|[[b ->]|[b [v ->]]]];
        rewrite valve_update_temperature by done; simpl; by rewrite Hc, Hv2.
    + rewrite (valve_update_uptime h2 e) in Hret |- * by done.
      destruct (ValveControllerSensor.coordinators e !! _) as [c|] eqn:Hc; [|done].
      simpl in *. destruct (data (h2 c) !! _) as [v2|] eqn:Hv2; [|done].
      destruct (valve_update_assigns_available_then_value h1 e)
        as [->|[[b ->]|[b [v ->]]]];
        rewrite valve_update_uptime by done; simpl; by rewrite Hc, Hv2.
    + rewrite (valve_update_other h1 e) by done. simpl. by rewrite valve_update_other.
Qed.

(** X4. A valve-controller update that fails on the data key has already
    refreshed availability: it raises [KeyError] for the key and leaves the
    old entity with [_attr_available] equal to the coordinator's
    [last_update_success], the stale value still in [_attr_native_value]
    and every other attribute as before. *)
Theorem X4_failed_valve_update_refreshes_availability
    (h : heap) (e : ValveControllerSensor.t) (c : coord_id) :
  let refreshed :=
    {| ValveControllerSensor._entry := ValveControllerSensor._entry e;
       ValveControllerSensor.coordinators := ValveControllerSensor.coordinators e;
       ValveControllerSensor._description := ValveControllerSensor._description e;
       ValveControllerSensor._attr_available := last_update_success (h c);
       ValveControllerSensor._attr_native_value :=
         ValveControllerSensor._attr_native_value e;
       ValveControllerSensor._attr_native_unit_of_measurement :=
         ValveControllerSensor._attr_native_unit_of_measurement e |} in
  (key (ValveControllerSensor._description e) = "temperature" →
   ValveControllerSensor.coordinators e !! API_SYSTEM_ONBOARD_SENSOR_STATUS = Some c →
   data (h c) !! "temperature" = None →
   ValveControllerSensor._async_update_from_latest_data h e
     = (Raised (KeyError "temperature"), refreshed)
   ∧ ValveControllerSensor._attr_available
       (ValveControllerSensor._async_update_from_latest_data h e).2
     = last_update_success (h c))
  ∧ (key (ValveControllerSensor._description e) = "uptime" →
     ValveControllerSensor.coordinators e !! API_SYSTEM_DIAGNOSTICS = Some c →
     data (h c) !! "uptime" = None →
     ValveControllerSensor._async_update_from_latest_data h e
       = (Raised (KeyError "uptime"), refreshed)
     ∧ ValveControllerSensor._attr_available
         (ValveControllerSensor._async_update_from_latest_data h e).2
       = last_update_success (h c)).
Proof.
  intros refreshed. split; intros Hk Hc Hv.
  - rewrite valve_update_temperature, Hc by done. simpl. by rewrite Hv.
  - rewrite valve_update_uptime, Hc by done. simpl. by rewrite Hv.
Qed.

(** X5. No operation of the module rebinds an entity: along any sequence
    of updates and setup continuations it keeps the coordinator (or the
    coordinator dictionary) and the config entry it was created with. *)
Theorem X5_binding_never_changes (s s' : sensor) :
  rtc module_step s s' →
  sensor_binding s' = sensor_binding s ∧ sensor_entry s' = sensor_entry s.
Proof.
  induction 1 as [s|s1 s2 s3 Hstep _ [IHb IHe]]; [done|].
  rewrite IHb, IHe. clear IHb IHe.
  destruct Hstep as [h e|h e|e]; simpl.
  - by destruct (paired_update_assigns_value_only h e) as [->|[v ->]].
  - by destruct (valve_update_assigns_available_then_value h e)
      as [->|[[b ->]|[b [v ->]]]].
  - done.
Qed.

(** X8. An update reads one coordinator only: a paired sensor its own, a
    valve-controller temperature sensor the onboard-sensor-status one, an
    uptime sensor the diagnostics one.  Whatever the other coordinators
    hold, the result is the same. *)
Theorem X8_update_reads_one_coordinator (h1 h2 : heap) :
  (∀ p : PairedSensorSensor.t,
     h1 (PairedSensorSensor.coordinator p) = h2 (PairedSensorSensor.coordinator p) →
     PairedSensorSensor._async_update_from_latest_data h1 p
     = PairedSensorSensor._async_update_from_latest_data h2 p)
  ∧ (∀ e : ValveControllerSensor.t,
       key (ValveControllerSensor._description e) = "temperature" →
       (∀ c, ValveControllerSensor.coordinators e !! API_SYSTEM_ONBOARD_SENSOR_STATUS
             = Some c → h1 c = h2 c) →
       ValveControllerSensor._async_update_from_latest_data h1 e
       = ValveControllerSensor._async_update_from_latest_data h2 e)
  ∧ (∀ e : ValveControllerSensor.t,
       key (ValveControllerSensor._description e) = "uptime" →
       (∀ c, ValveControllerSensor.coordinators e !! API_SYSTEM_DIAGNOSTICS
             = Some c → h1 c = h2 c) →
       ValveControllerSensor._async_update_from_latest_data h1 e
       = ValveControllerSensor._async_update_from_latest_data h2 e).
Proof.
  split_and!.
  - intros p Hsame.
    destruct (paired_key_cases (key (PairedSensorSensor._description p)))
      as [Hk|[Hk|[Hk1 Hk2]]].
    + by rewrite !paired_update_battery, Hsame.
    + by rewrite !paired_update_temperature, Hsame.
    + by rewrite !paired_update_other.
  - intros e Hk Hsame. rewrite !valve_update_temperature by done.
    destruct (ValveControllerSensor.coordinators e !! _) as [c|]; [|done].
    by rewrite (Hsame c).
  - intros e Hk Hsame. rewrite !valve_update_uptime by done.
    destruct (ValveControllerSensor.coordinators e !! _) as [c|]; [|done].
    by rewrite (Hsame c).
Qed.

(** *** Further properties of the platform setup *)

(** [async_setup_entry] on every path: the four lookups in the order the
    code makes them. *)
Lemma async_setup_entry_cases entry w :
  async_setup_entry entry w =
    match DATA_UNSUB_DISPATCHER_CONNECT (hass w) !! ConfigEntry.entry_id entry with
    | None => (Raised (KeyError (ConfigEntry.entry_id entry)), w)
    | Some _ =>
        match ConfigEntry.data entry !! CONF_UID with
        | None => (Raised (KeyError CONF_UID), w)
        | Some uid =>
            let w1 := connected entry uid w in
            match DATA_COORDINATOR (hass w) !! ConfigEntry.entry_id entry with
            | None => (Raised (KeyError (ConfigEntry.entry_id entry)), w1)
            | Some cs =>
                match DATA_COORDINATOR_PAIRED_SENSOR (hass w)
                        !! ConfigEntry.entry_id entry with
                | None => (Raised (KeyError (ConfigEntry.entry_id entry)), w1)
                | Some by_uid =>
                    (Returned tt,
                     {| hass := hass w1;
                        host_calls := host_calls w1
                          ++ [Call_async_add_entities
                                (valve_sensors_for entry cs
                                   ++ (values by_uid ≫= paired_sensors_for entry))
                                false] |})
                end
            end
        end
    end.
Proof.
  unfold async_setup_entry, subscript, async_dispatcher_connect, append_unsub,
    async_add_entities, log_call, connected.
  run_M.
  destruct (DATA_UNSUB_DISPATCHER_CONNECT (hass w) !! _) as [unsubs|]; run_M; [|done].
  destruct (ConfigEntry.data entry !! _) as [uid|]; run_M; [|done].
  destruct (DATA_COORDINATOR (hass w) !! _) as [cs|] eqn:Hcs; run_M; [|done].
  rewrite Hcs. run_M.
  destruct (DATA_COORDINATOR_PAIRED_SENSOR (hass w) !! _) as [by_uid|]; run_M; [|done].
  rewrite (for_each_appends (paired_sensors_for entry))
    by (intros c acc s; run_M; by rewrite <- app_assoc).
  done.
Qed.

Lemma add_new_paired_sensor_cases entry uid w :
  add_new_paired_sensor entry uid w =
    match DATA_COORDINATOR_PAIRED_SENSOR (hass w) !! ConfigEntry.entry_id entry with
    | None => (Raised (KeyError (ConfigEntry.entry_id entry)), w)
    | Some by_uid =>
        match ordered_lookup by_uid uid with
        | None => (Raised (KeyError uid), w)
        | Some c =>
            (Returned tt,
             {| hass := hass w;
                host_calls := host_calls w
                  ++ [Call_async_add_entities (paired_sensors_for entry c) true] |})
        end
    end.
Proof.
  unfold add_new_paired_sensor, subscript, ordered_subscript. run_M.
  destruct (DATA_COORDINATOR_PAIRED_SENSOR (hass w) !! _) as [by_uid|]; run_M; [|done].
  by destruct (ordered_lookup by_uid uid).
Qed.

Lemma added_entities_app (l1 l2 : list host_call) :
  added_entities (l1 ++ l2) = added_entities l1 ++ added_entities l2.
Proof.
  induction l1 as [|[signal target|l b] l1 IH]; simpl; by rewrite ?IH.
Qed.

Lemma ordered_lookup_values {V} (d : list (string * V)) (k : string) (v : V) :
  ordered_lookup d k = Some v → v ∈ values d.
Proof.
  unfold values. induction d as [|[k' v'] d IH]; simpl; [done|].
  case_decide; intros Hv; [injection Hv as ->; by left|]. right. by apply IH.
Qed.

Lemma paired_sensors_for_length entry c : length (paired_sensors_for entry c) = 2.
Proof. done. Qed.

Lemma bind_paired_sensors_length entry (cs : list coord_id) :
  length (cs ≫= paired_sensors_for entry) = 2 * length cs.
Proof.
  induction cs as [|c cs IH]; [done|].
  change (length (paired_sensors_for entry c ++ (cs ≫= paired_sensors_for entry))
          = 2 * length (c :: cs)).
  rewrite length_app, IH, paired_sensors_for_length. simpl. lia.
Qed.


(** X9. Setup fails before touching anything when the entry has no list of
    unsubscribe handles ([KeyError] for the entry id) or, that list being
    there, when the entry's data has no uid ([KeyError] for [CONF_UID]): no
    signal is connected, nothing is added, the world is as it was. *)
Theorem X9_setup_fails_early_without_effect
    (entry : ConfigEntry.t) (w : world) :
  (DATA_UNSUB_DISPATCHER_CONNECT (hass w) !! ConfigEntry.entry_id entry = None →
   async_setup_entry entry w = (Raised (KeyError (ConfigEntry.entry_id entry)), w))
  ∧ (is_Some (DATA_UNSUB_DISPATCHER_CONNECT (hass w) !! ConfigEntry.entry_id entry) →
     ConfigEntry.data entry !! CONF_UID = None →
     async_setup_entry entry w = (Raised (KeyError CONF_UID), w)).
Proof.
  rewrite async_setup_entry_cases. split.
  - by intros ->.
  - intros [unsubs ->] Huid. by rewrite Huid.
Qed.

(** X10. When the entry's coordinators or its paired-sensor dictionary are
    missing, setup raises [KeyError] for the entry id only after it has
    connected the signal and stored the handle: both stay in place, and no
    entity has been added. *)
Theorem X10_setup_fails_late_after_connecting
    (entry : ConfigEntry.t) (w : world) (unsubs : list unsub) (uid : value) :
  DATA_UNSUB_DISPATCHER_CONNECT (hass w) !! ConfigEntry.entry_id entry = Some unsubs →
  ConfigEntry.data entry !! CONF_UID = Some uid →
  DATA_COORDINATOR (hass w) !! ConfigEntry.entry_id entry = None
  ∨ DATA_COORDINATOR_PAIRED_SENSOR (hass w) !! ConfigEntry.entry_id entry = None →
  let signal := str_format SIGNAL_PAIRED_SENSOR_COORDINATOR_ADDED uid in
  let target := Closure_add_new_paired_sensor entry in
  let r := async_setup_entry entry w in
  r.1 = Raised (KeyError (ConfigEntry.entry_id entry))
  ∧ host_calls r.2 = host_calls w ++ [Call_async_dispatcher_connect signal target]
  ∧ DATA_UNSUB_DISPATCHER_CONNECT (hass r.2) !! ConfigEntry.entry_id entry
    = Some (unsubs ++ [Unsub signal target]).
Proof.
  intros Hun Huid Hmissing. simpl.
  rewrite async_setup_entry_cases, Hun, Huid. simpl.
  assert (Hstored :
    alter (λ l, l ++ [Unsub (str_format SIGNAL_PAIRED_SENSOR_COORDINATOR_ADDED uid)
                        (Closure_add_new_paired_sensor entry)])
      (ConfigEntry.entry_id entry) (DATA_UNSUB_DISPATCHER_CONNECT (hass w))
      !! ConfigEntry.entry_id entry
    = Some (unsubs ++ [Unsub (str_format SIGNAL_PAIRED_SENSOR_COORDINATOR_ADDED uid)
                         (Closure_add_new_paired_sensor entry)])).
  { by rewrite lookup_alter_eq, Hun. }
  destruct (DATA_COORDINATOR (hass w) !! _) as [cs|]; [|done].
  destruct Hmissing as [? | ->]; done.
Qed.

(** X11. Whatever its outcome, setup leaves the coordinator dictionaries
    and the handle lists of all other config entries as they were, and only
    ever appends to the log of host calls. *)
Theorem X11_setup_frame (entry : ConfigEntry.t) (w : world) :
  let w' := (async_setup_entry entry w).2 in
  DATA_COORDINATOR (hass w') = DATA_COORDINATOR (hass w)
  ∧ DATA_COORDINATOR_PAIRED_SENSOR (hass w') = DATA_COORDINATOR_PAIRED_SENSOR (hass w)
  ∧ (∀ other : string,
       other ≠ ConfigEntry.entry_id entry →
       DATA_UNSUB_DISPATCHER_CONNECT (hass w') !! other
       = DATA_UNSUB_DISPATCHER_CONNECT (hass w) !! other)
  ∧ host_calls w `prefix_of` host_calls w'.
Proof.
  simpl. rewrite async_setup_entry_cases.
  destruct (DATA_UNSUB_DISPATCHER_CONNECT (hass w) !! _) as [unsubs|]; [|done].
  destruct (ConfigEntry.data entry !! _) as [uid|]; [|done].
  assert (Hother : ∀ other : string,
    other ≠ ConfigEntry.entry_id entry →
    DATA_UNSUB_DISPATCHER_CONNECT (hass (connected entry uid w)) !! other
    = DATA_UNSUB_DISPATCHER_CONNECT (hass w) !! other).
  { intros other Hne. simpl. by rewrite lookup_alter_ne. }
  destruct (DATA_COORDINATOR (hass w) !! _) as [cs|]; simpl;
    [destruct (DATA_COORDINATOR_PAIRED_SENSOR (hass w) !! _) as [by_uid|]; simpl|];
    split_and!; try done; try (by apply prefix_app_r).
  rewrite <- app_assoc. by apply prefix_app_r.
Qed.

(** X12. A successful setup adds, in its single call to the
    entity-addition callback, two entities for the valve controller and two
    for every paired sensor registered for the entry. *)
Theorem X12_setup_entity_count
    (entry : ConfigEntry.t) (w : world) (unsubs : list unsub) (uid : value)
    (cs : gmap string coord_id) (by_uid : list (string * coord_id)) :
  DATA_UNSUB_DISPATCHER_CONNECT (hass w) !! ConfigEntry.entry_id entry = Some unsubs →
  ConfigEntry.data entry !! CONF_UID = Some uid →
  DATA_COORDINATOR (hass w) !! ConfigEntry.entry_id entry = Some cs →
  DATA_COORDINATOR_PAIRED_SENSOR (hass w) !! ConfigEntry.entry_id entry = Some by_uid →
  ∃ l : list sensor,
    added_entities (host_calls (async_setup_entry entry w).2)
      = added_entities (host_calls w) ++ [l]
    ∧ length l = 2 + 2 * length by_uid.
Proof.
  intros Hun Huid Hcs Hby.
  rewrite async_setup_entry_cases, Hun, Huid, Hcs, Hby.
  exists (valve_sensors_for entry cs ++ (values by_uid ≫= paired_sensors_for entry)).
  split.
  - simpl. by rewrite <- app_assoc, added_entities_app.
  - rewrite length_app, bind_paired_sensors_length. unfold values.
    by rewrite length_fmap.
Qed.

(** X13. [add_new_paired_sensor] fails without adding anything when the
    entry has no paired-sensor dictionary ([KeyError] for the entry id) or
    the dictionary has no coordinator under the uid ([KeyError] for the
    uid). *)
Theorem X13_callback_fails_without_effect
    (entry : ConfigEntry.t) (uid : string) (w : world) :
  (DATA_COORDINATOR_PAIRED_SENSOR (hass w) !! ConfigEntry.entry_id entry = None →
   add_new_paired_sensor entry uid w
     = (Raised (KeyError (ConfigEntry.entry_id entry)), w))
  ∧ (∀ by_uid,
       DATA_COORDINATOR_PAIRED_SENSOR (hass w) !! ConfigEntry.entry_id entry
         = Some by_uid →
       ordered_lookup by_uid uid = None →
       add_new_paired_sensor entry uid w = (Raised (KeyError uid), w)).
Proof.
  rewrite add_new_paired_sensor_cases. split.
  - by intros ->.
  - intros by_uid -> Hnone. by rewrite Hnone.
Qed.

(** X14. Whatever its outcome, [add_new_paired_sensor] leaves
    [hass.data] untouched, and its only possible host call is one
    [async_add_entities] asking for an update before the entities are
    added. *)
Theorem X14_callback_frame (entry : ConfigEntry.t) (uid : string) (w : world) :
  let w' := (add_new_paired_sensor entry uid w).2 in
  hass w' = hass w
  ∧ (host_calls w' = host_calls w
     ∨ ∃ l, host_calls w' = host_calls w ++ [Call_async_add_entities l true]).
Proof.
  simpl. rewrite add_new_paired_sensor_cases.
  destruct (DATA_COORDINATOR_PAIRED_SENSOR (hass w) !! _) as [by_uid|]; [|by auto].
  destruct (ordered_lookup by_uid uid); simpl; eauto.
Qed.

(** X15. The module does not deduplicate: if the signal fires, right after
    a successful setup, for a uid that was already registered then, the
    callback adds entities equal to ones setup has just added. *)
Theorem X15_signal_for_known_sensor_adds_duplicates
    (entry : ConfigEntry.t) (w : world) (unsubs : list unsub) (conf_uid : value)
    (cs : gmap string coord_id) (by_uid : list (string * coord_id))
    (uid : string) (c : coord_id) :
  DATA_UNSUB_DISPATCHER_CONNECT (hass w) !! ConfigEntry.entry_id entry = Some unsubs →
  ConfigEntry.data entry !! CONF_UID = Some conf_uid →
  DATA_COORDINATOR (hass w) !! ConfigEntry.entry_id entry = Some cs →
  DATA_COORDINATOR_PAIRED_SENSOR (hass w) !! ConfigEntry.entry_id entry = Some by_uid →
  ordered_lookup by_uid uid = Some c →
  let w' := (async_setup_entry entry w).2 in
  ∃ at_setup at_signal : list sensor,
    host_calls (run_callback (Closure_add_new_paired_sensor entry) uid w').2
      = host_calls w
          ++ [Call_async_dispatcher_connect
                (str_format SIGNAL_PAIRED_SENSOR_COORDINATOR_ADDED conf_uid)
                (Closure_add_new_paired_sensor entry);
              Call_async_add_entities at_setup false;
              Call_async_add_entities at_signal true]
    ∧ at_signal ≠ []
    ∧ at_signal ⊆ at_setup.
Proof.
  intros Hun Huid Hcs Hby Hc. simpl.
  rewrite async_setup_entry_cases, Hun, Huid, Hcs, Hby. simpl.
  rewrite add_new_paired_sensor_cases. simpl. rewrite Hby, Hc. simpl.
  eexists _, _. split_and!.
  - by rewrite <- !app_assoc.
  - done.
  - apply ordered_lookup_values in Hc.
    intros s Hs. do 2 right. apply list_elem_of_bind. eauto.
Qed.


(** X17. Setup is not idempotent: run twice on the same entry it connects
    the signal twice, stores two handles and adds the same entities
    twice. *)
Theorem X17_setup_twice_duplicates
    (entry : ConfigEntry.t) (w : world) (unsubs : list unsub) (uid : value)
    (cs : gmap string coord_id) (by_uid : list (string * coord_id)) :
  DATA_UNSUB_DISPATCHER_CONNECT (hass w) !! ConfigEntry.entry_id entry = Some unsubs →
  ConfigEntry.data entry !! CONF_UID = Some uid →
  DATA_COORDINATOR (hass w) !! ConfigEntry.entry_id entry = Some cs →
  DATA_COORDINATOR_PAIRED_SENSOR (hass w) !! ConfigEntry.entry_id entry = Some by_uid →
  let signal := str_format SIGNAL_PAIRED_SENSOR_COORDINATOR_ADDED uid in
  let target := Closure_add_new_paired_sensor entry in
  let added := valve_sensors_for entry cs ++ (values by_uid ≫= paired_sensors_for entry) in
  let r := (async_setup_entry entry;; async_setup_entry entry) w in
  r.1 = Returned tt
  ∧ host_calls r.2
    = host_calls w
        ++ [Call_async_dispatcher_connect signal target;
            Call_async_add_entities added false;
            Call_async_dispatcher_connect signal target;
            Call_async_add_entities added false]
  ∧ DATA_UNSUB_DISPATCHER_CONNECT (hass r.2) !! ConfigEntry.entry_id entry
    = Some (unsubs ++ [Unsub signal target; Unsub signal target]).
Proof.
  intros Hun Huid Hcs Hby. simpl. run_M.
  rewrite (async_setup_entry_run entry w unsubs uid cs by_uid) by done. simpl.
  rewrite (async_setup_entry_run entry _
             (unsubs ++ [Unsub (str_format SIGNAL_PAIRED_SENSOR_COORDINATOR_ADDED uid)
                           (Closure_add_new_paired_sensor entry)]) uid cs by_uid);
    simpl; try done; [|by rewrite lookup_insert_eq].
  split_and!; [done| |].
  - by rewrite <- !app_assoc.
  - by rewrite lookup_insert_eq, <- app_assoc.
Qed.

End Properties.

(** ** The properties on the sample installation *)

Section Runs.
Import SensorEntityDescription DataUpdateCoordinator.
Local Existing Instance Sample.constants.

(** Behaviour of the model on the sample installation. *)
Example paired_battery_reads_95 :
  PairedSensorSensor._attr_native_value
    (PairedSensorSensor._async_update_from_latest_data Sample.latest Sample.paired_battery).2
  = VInt 95.
Proof. reflexivity. Qed.

Example valve_uptime_unavailable :
  ValveControllerSensor._async_update_from_latest_data Sample.latest Sample.valve_uptime
  = (Returned tt,
     ValveControllerSensor.set_attr_native_value (VInt 3600)
       (ValveControllerSensor.set_attr_available false Sample.valve_uptime)).
Proof. reflexivity. Qed.

Example stale_valve_temperature_raises :
  (ValveControllerSensor._async_update_from_latest_data Sample.latest
     Sample.stale_valve_temperature).1
  = Raised (KeyError "temperature").
Proof. reflexivity. Qed.

Example setup_adds_six_entities :
  host_calls (async_setup_entry Sample.entry Sample.at_setup).2
  = [Call_async_dispatcher_connect "guardian_paired_sensor_coordinator_added_ABCDEF"
       (Closure_add_new_paired_sensor Sample.entry);
     Call_async_add_entities
       [Valve Sample.valve_temperature; Valve Sample.valve_uptime;
        Paired Sample.paired_battery; Paired Sample.paired_temperature;
        Paired (PairedSensorSensor.__init__ Sample.entry 3 SENSOR_DESCRIPTION_BATTERY);
        Paired (PairedSensorSensor.__init__ Sample.entry 3 SENSOR_DESCRIPTION_TEMPERATURE)]
       false].
Proof. reflexivity. Qed.

(** C1 on the paired sensor behind coordinator 2. *)
Lemma C1_witness :
  PairedSensorSensor._attr_native_value
    (PairedSensorSensor._async_update_from_latest_data Sample.latest
       Sample.paired_battery).2 = VInt 95
  ∧ PairedSensorSensor._attr_native_value
      (PairedSensorSensor._async_update_from_latest_data Sample.latest
         Sample.paired_temperature).2 = VInt 68.
Proof.
  split.
  - exact (proj2 (proj1 (C1_paired_update_selects_field
                           Sample.latest Sample.paired_battery (VInt 95))
                    eq_refl eq_refl)).
  - exact (proj2 (proj2 (C1_paired_update_selects_field
                           Sample.latest Sample.paired_temperature (VInt 68))
                    eq_refl eq_refl)).
Defined.

(** C2 on the valve controller's two sensors. *)
Lemma C2_witness :
  (∃ e', ValveControllerSensor._async_update_from_latest_data Sample.latest
           Sample.valve_temperature = (Returned tt, e')
     ∧ ValveControllerSensor._attr_available e' = true
     ∧ ValveControllerSensor._attr_native_value e' = VInt 71)
  ∧ (∃ e', ValveControllerSensor._async_update_from_latest_data Sample.latest
             Sample.valve_uptime = (Returned tt, e')
       ∧ ValveControllerSensor._attr_available e' = false
       ∧ ValveControllerSensor._attr_native_value e' = VInt 3600).
Proof.
  split.
  - apply (proj1 (C2_valve_update_selects_coordinator_and_field
                    Sample.latest Sample.valve_temperature 0 (VInt 71))); reflexivity.
  - apply (proj2 (C2_valve_update_selects_coordinator_and_field
                    Sample.latest Sample.valve_uptime 1 (VInt 3600))); reflexivity.
Defined.

(** C3 on the sample installation. *)
Lemma C3_witness :
  (async_setup_entry Sample.entry Sample.at_setup).1 = Returned tt
  ∧ host_calls (async_setup_entry Sample.entry Sample.at_setup).2
    = [Call_async_dispatcher_connect "guardian_paired_sensor_coordinator_added_ABCDEF"
         (Closure_add_new_paired_sensor Sample.entry);
       Call_async_add_entities
         (valve_sensors_for Sample.entry Sample.coordinators
            ++ paired_sensors_for Sample.entry 2 ++ paired_sensors_for Sample.entry 3)
         false].
Proof.
  destruct (C3_setup_adds_all_sensors Sample.entry Sample.at_setup []
              (VStr "ABCDEF") Sample.coordinators Sample.paired_by_uid)
    as (Hret & Hcalls & _); try reflexivity.
  split; [exact Hret | exact Hcalls].
Defined.

(** C4: the signal fires for the newly discovered sensor "CCC333". *)
Lemma C4_witness :
  ∃ target : callback,
    Call_async_dispatcher_connect "guardian_paired_sensor_coordinator_added_ABCDEF" target
      ∈ host_calls (async_setup_entry Sample.entry Sample.at_setup).2
    ∧ (run_callback target "CCC333" Sample.at_signal).1 = Returned tt
    ∧ host_calls (run_callback target "CCC333" Sample.at_signal).2
      = [Call_async_add_entities (paired_sensors_for Sample.entry 4) true].
Proof.
  destruct (C4_signal_adds_paired_sensors Sample.entry Sample.at_setup []
              (VStr "ABCDEF") Sample.coordinators Sample.paired_by_uid
              Sample.at_signal "CCC333" (Sample.paired_by_uid ++ [("CCC333", 4)]) 4)
    as (target & Hconn & Hrun & _); try reflexivity.
  exists target. rewrite Hrun. split; [exact Hconn | split; reflexivity].
Defined.

(** C5: the extra cached field is invisible to every entity. *)
Lemma C5_witness :
  heap_agree Sample.latest Sample.latest_with_rssi
  ∧ PairedSensorSensor._async_update_from_latest_data Sample.latest Sample.paired_battery
    = PairedSensorSensor._async_update_from_latest_data Sample.latest_with_rssi
        Sample.paired_battery
  ∧ ValveControllerSensor._async_update_from_latest_data Sample.latest Sample.valve_uptime
    = ValveControllerSensor._async_update_from_latest_data Sample.latest_with_rssi
        Sample.valve_uptime.
Proof.
  assert (Hagree : heap_agree Sample.latest Sample.latest_with_rssi).
  { intros [|[|[|c]]]; vm_compute; repeat split. }
  destruct (C5_update_depends_only_on_interface _ _ Hagree) as [Hp Hv].
  split; [exact Hagree | split; [apply Hp | apply Hv]].
Defined.

(** C6 on entities whose coordinators have fetched nothing. *)
Lemma C6_witness :
  PairedSensorSensor._async_update_from_latest_data Sample.latest Sample.stale_paired_battery
    = (Raised (KeyError "battery"), Sample.stale_paired_battery)
  ∧ PairedSensorSensor._async_update_from_latest_data Sample.latest
      Sample.stale_paired_temperature
    = (Raised (KeyError "temperature"), Sample.stale_paired_temperature)
  ∧ (∃ e', ValveControllerSensor._async_update_from_latest_data Sample.latest
             Sample.stale_valve_temperature = (Raised (KeyError "temperature"), e')
       ∧ ValveControllerSensor._attr_native_value e' = VNone)
  ∧ (∃ e', ValveControllerSensor._async_update_from_latest_data Sample.latest
             Sample.stale_valve_uptime = (Raised (KeyError "uptime"), e')
       ∧ ValveControllerSensor._attr_native_value e' = VNone).
Proof.
  split; [|split; [|split]].
  - apply (proj1 (C6_missing_key_raises Sample.latest Sample.stale_paired_battery
                    Sample.stale_valve_temperature 7)); reflexivity.
  - apply (proj1 (proj2 (C6_missing_key_raises Sample.latest
                           Sample.stale_paired_temperature
                           Sample.stale_valve_temperature 7))); reflexivity.
  - apply (proj1 (proj2 (proj2 (C6_missing_key_raises Sample.latest
                                  Sample.stale_paired_battery
                                  Sample.stale_valve_temperature 7)))); reflexivity.
  - apply (proj2 (proj2 (proj2 (C6_missing_key_raises Sample.latest
                                  Sample.stale_paired_battery
                                  Sample.stale_valve_uptime 8)))); reflexivity.
Defined.

(** C7 on a paired sensor described as uptime and a valve-controller
    sensor described as battery. *)
Lemma C7_witness :
  PairedSensorSensor._async_update_from_latest_data Sample.latest Sample.paired_uptime
    = (Returned tt, Sample.paired_uptime)
  ∧ ValveControllerSensor._async_update_from_latest_data Sample.latest Sample.valve_battery
    = (Returned tt, Sample.valve_battery).
Proof.
  split.
  - apply (proj1 (C7_unhandled_key_is_noop Sample.latest Sample.paired_uptime
                    Sample.valve_battery)).
    apply (bool_decide_unpack _). vm_compute. exact I.
  - apply (proj2 (C7_unhandled_key_is_noop Sample.latest Sample.paired_uptime
                    Sample.valve_battery)).
    apply (bool_decide_unpack _). vm_compute. exact I.
Defined.

(** C8: flipping every [last_update_success] flag is invisible to the
    paired sensor and decides the availability of the uptime sensor. *)
Lemma C8_witness :
  PairedSensorSensor._async_update_from_latest_data Sample.latest Sample.paired_battery
    = PairedSensorSensor._async_update_from_latest_data Degraded.flags_flipped
        Sample.paired_battery
  ∧ ValveControllerSensor._attr_available
      (ValveControllerSensor._async_update_from_latest_data Sample.latest
         Sample.valve_uptime).2 = false
  ∧ ValveControllerSensor._attr_available
      (ValveControllerSensor._async_update_from_latest_data Degraded.flags_flipped
         Sample.valve_uptime).2 = true.
Proof.
  destruct C8_paired_update_keeps_availability as (_ & Hdata & Htied & _).
  split; [|split].
  - exact (Hdata Sample.latest Degraded.flags_flipped Sample.paired_battery eq_refl).
  - exact (Htied Sample.latest Sample.valve_uptime 1 (or_intror (conj eq_refl eq_refl))).
  - exact (Htied Degraded.flags_flipped Sample.valve_uptime 1
             (or_intror (conj eq_refl eq_refl))).
Defined.

(** C9 along two updates of the paired battery sensor. *)
Lemma C9_witness :
  let s := Paired Sample.paired_battery in
  let s1 := Paired (PairedSensorSensor._async_update_from_latest_data Sample.latest
                      Sample.paired_battery).2 in
  rtc module_step s s1
  ∧ sensor_unit s1 = Some "%"
  ∧ sensor_unit s1 = sensor_unit s.
Proof.
  intros s s1.
  assert (Hrun : rtc module_step s s1).
  { eapply rtc_l; [apply step_paired_update | apply rtc_refl]. }
  split; [exact Hrun|].
  apply (proj2 (proj2 (proj2 (proj2 (proj2 C9_unit_fixed_at_init)))) s s1 Hrun).
  reflexivity.
Defined.

(** C10 on the valve controller's temperature sensor. *)
Lemma C10_witness :
  (ValveControllerSensor._async_continue_entity_setup Sample.valve_temperature []).2
  = ["system_onboard_sensor_status"].
Proof.
  destruct (C10_continue_setup_registers_iff_temperature Sample.valve_temperature [])
    as (_ & [Hregisters _] & _).
  exact (Hregisters eq_refl).
Defined.

(** X1 on valve-controller sensors with an empty coordinator dictionary. *)
Lemma X1_witness :
  ValveControllerSensor._async_update_from_latest_data Sample.latest
    Degraded.unbound_valve_temperature
    = (Raised (KeyError "system_onboard_sensor_status"), Degraded.unbound_valve_temperature)
  ∧ ValveControllerSensor._async_update_from_latest_data Sample.latest
      Degraded.unbound_valve_uptime
    = (Raised (KeyError "system_diagnostics"), Degraded.unbound_valve_uptime).
Proof.
  split.
  - exact (proj1 (X1_valve_update_without_coordinator Sample.latest
                    Degraded.unbound_valve_temperature) eq_refl eq_refl).
  - exact (proj2 (X1_valve_update_without_coordinator Sample.latest
                    Degraded.unbound_valve_uptime) eq_refl eq_refl).
Defined.

(** X3: a failed refresh of the battery, then a successful one; and two
    successive successful refreshes of the uptime. *)
Lemma X3_witness :
  PairedSensorSensor._async_update_from_latest_data Sample.latest
    (PairedSensorSensor._async_update_from_latest_data Degraded.battery_lost
       Sample.paired_battery).2
    = PairedSensorSensor._async_update_from_latest_data Sample.latest Sample.paired_battery
  ∧ ValveControllerSensor._async_update_from_latest_data Degraded.diagnostics_refreshed
      (ValveControllerSensor._async_update_from_latest_data Sample.latest
         Sample.valve_uptime).2
    = ValveControllerSensor._async_update_from_latest_data Degraded.diagnostics_refreshed
        Sample.valve_uptime.
Proof.
  split.
  - apply (proj1 (X3_last_successful_update_wins Degraded.battery_lost Sample.latest)).
    reflexivity.
  - apply (proj2 (X3_last_successful_update_wins Sample.latest
                    Degraded.diagnostics_refreshed)).
    reflexivity.
Defined.

(** X4 on a sensor whose coordinator has fetched nothing and reports
    failure, and on one whose coordinator reports success without the
    key. *)
Lemma X4_witness :
  (ValveControllerSensor._async_update_from_latest_data Sample.latest
     Sample.stale_valve_temperature).1 = Raised (KeyError "temperature")
  ∧ ValveControllerSensor._attr_available
      (ValveControllerSensor._async_update_from_latest_data Sample.latest
         Sample.stale_valve_temperature).2 = false
  ∧ ValveControllerSensor._attr_available
      (ValveControllerSensor._async_update_from_latest_data Degraded.uptime_lost
         Degraded.unavailable_valve_uptime).2 = true.
Proof.
  split; [|split].
  - exact (f_equal fst
             (proj1 (proj1 (X4_failed_valve_update_refreshes_availability Sample.latest
                              Sample.stale_valve_temperature 7)
                       eq_refl eq_refl eq_refl))).
  - exact (proj2 (proj1 (X4_failed_valve_update_refreshes_availability Sample.latest
                           Sample.stale_valve_temperature 7)
                    eq_refl eq_refl eq_refl)).
  - exact (proj2 (proj2 (X4_failed_valve_update_refreshes_availability
                           Degraded.uptime_lost Degraded.unavailable_valve_uptime 1)
                    eq_refl eq_refl eq_refl)).
Defined.

(** X5 along an update of the uptime sensor followed by its setup
    continuation. *)
Lemma X5_witness :
  let s := Valve Sample.valve_uptime in
  let s1 := Valve (ValveControllerSensor._async_update_from_latest_data Sample.latest
                     Sample.valve_uptime).2 in
  rtc module_step s s1
  ∧ sensor_binding s1 = inr Sample.coordinators
  ∧ sensor_entry s1 = Sample.entry.
Proof.
  intros s s1.
  assert (Hrun : rtc module_step s s1).
  { eapply rtc_l; [apply step_valve_update|].
    eapply rtc_l; [apply step_valve_continue_setup | apply rtc_refl]. }
  split; [exact Hrun | exact (X5_binding_never_changes s s1 Hrun)].
Defined.

(** X8: refreshing the diagnostics coordinator is invisible to the paired
    sensor and to the valve controller's temperature sensor; losing the
    paired sensor's battery reading is invisible to the uptime sensor. *)
Lemma X8_witness :
  PairedSensorSensor._async_update_from_latest_data Sample.latest Sample.paired_battery
    = PairedSensorSensor._async_update_from_latest_data Degraded.diagnostics_refreshed
        Sample.paired_battery
  ∧ ValveControllerSensor._async_update_from_latest_data Sample.latest
      Sample.valve_temperature
    = ValveControllerSensor._async_update_from_latest_data Degraded.diagnostics_refreshed
        Sample.valve_temperature
  ∧ ValveControllerSensor._async_update_from_latest_data Sample.latest Sample.valve_uptime
    = ValveControllerSensor._async_update_from_latest_data Degraded.battery_lost
        Sample.valve_uptime.
Proof.
  split; [|split].
  - apply (proj1 (X8_update_reads_one_coordinator Sample.latest
                    Degraded.diagnostics_refreshed)).
    reflexivity.
  - apply (proj1 (proj2 (X8_update_reads_one_coordinator Sample.latest
                           Degraded.diagnostics_refreshed))).
    + reflexivity.
    + intros c Hc. vm_compute in Hc. injection Hc as <-. reflexivity.
  - apply (proj2 (proj2 (X8_update_reads_one_coordinator Sample.latest
                           Degraded.battery_lost))).
    + reflexivity.
    + intros c Hc. vm_compute in Hc. injection Hc as <-. reflexivity.
Defined.

(** X9 for an entry the host knows nothing about, and for an entry
    without a uid. *)
Lemma X9_witness :
  async_setup_entry Degraded.unknown_entry Sample.at_setup
    = (Raised (KeyError "entry9"), Sample.at_setup)
  ∧ async_setup_entry Degraded.entry_without_uid Sample.at_setup
    = (Raised (KeyError "uid"), Sample.at_setup).
Proof.
  split.
  - apply (proj1 (X9_setup_fails_early_without_effect Degraded.unknown_entry
                    Sample.at_setup)).
    reflexivity.
  - exact (proj2 (X9_setup_fails_early_without_effect Degraded.entry_without_uid
                    Sample.at_setup) (ex_intro _ [] eq_refl) eq_refl).
Defined.

(** X10 when the entry's coordinators are missing, and when its
    paired-sensor dictionary is. *)
Lemma X10_witness :
  host_calls (async_setup_entry Sample.entry Degraded.without_coordinators).2
    = [Call_async_dispatcher_connect "guardian_paired_sensor_coordinator_added_ABCDEF"
         (Closure_add_new_paired_sensor Sample.entry)]
  ∧ (async_setup_entry Sample.entry Degraded.without_paired).1
    = Raised (KeyError "entry1").
Proof.
  destruct (X10_setup_fails_late_after_connecting Sample.entry
              Degraded.without_coordinators [] (VStr "ABCDEF"))
    as (_ & Hcalls & _); [reflexivity | reflexivity | left; reflexivity |].
  destruct (X10_setup_fails_late_after_connecting Sample.entry
              Degraded.without_paired [] (VStr "ABCDEF"))
    as (Hraised & _); [reflexivity | reflexivity | right; reflexivity |].
  split; [exact Hcalls | exact Hraised].
Defined.

(** X11: another entry's handles are not touched. *)
Lemma X11_witness :
  DATA_UNSUB_DISPATCHER_CONNECT (hass (async_setup_entry Sample.entry Sample.at_setup).2)
    !! "entry2"
  = DATA_UNSUB_DISPATCHER_CONNECT (hass Sample.at_setup) !! "entry2".
Proof.
  destruct (X11_setup_frame Sample.entry Sample.at_setup) as (_ & _ & Hother & _).
  apply Hother. discriminate.
Defined.

(** X12: two paired sensors give six entities. *)
Lemma X12_witness :
  ∃ l : list sensor,
    added_entities (host_calls (async_setup_entry Sample.entry Sample.at_setup).2) = [l]
    ∧ length l = 6.
Proof.
  apply (X12_setup_entity_count Sample.entry Sample.at_setup [] (VStr "ABCDEF")
           Sample.coordinators Sample.paired_by_uid); reflexivity.
Defined.

(** X13 for an unknown entry and for an unknown uid. *)
Lemma X13_witness :
  add_new_paired_sensor Degraded.unknown_entry "AAA111" Sample.at_setup
    = (Raised (KeyError "entry9"), Sample.at_setup)
  ∧ add_new_paired_sensor Sample.entry "ZZZ999" Sample.at_setup
    = (Raised (KeyError "ZZZ999"), Sample.at_setup).
Proof.
  split.
  - apply (proj1 (X13_callback_fails_without_effect Degraded.unknown_entry "AAA111"
                    Sample.at_setup)).
    reflexivity.
  - apply (proj2 (X13_callback_fails_without_effect Sample.entry "ZZZ999"
                    Sample.at_setup) Sample.paired_by_uid); reflexivity.
Defined.

(** X15: the signal fires for "AAA111", present at setup. *)
Lemma X15_witness :
  ∃ at_setup at_signal : list sensor,
    host_calls (run_callback (Closure_add_new_paired_sensor Sample.entry) "AAA111"
                  (async_setup_entry Sample.entry Sample.at_setup).2).2
      = [Call_async_dispatcher_connect "guardian_paired_sensor_coordinator_added_ABCDEF"
           (Closure_add_new_paired_sensor Sample.entry);
         Call_async_add_entities at_setup false;
         Call_async_add_entities at_signal true]
    ∧ at_signal ≠ []
    ∧ at_signal ⊆ at_setup.
Proof.
  exact (X15_signal_for_known_sensor_adds_duplicates Sample.entry Sample.at_setup []
           (VStr "ABCDEF") Sample.coordinators Sample.paired_by_uid "AAA111" 2
           eq_refl eq_refl eq_refl eq_refl eq_refl).
Defined.


(** X17 on the sample installation. *)
Lemma X17_witness :
  host_calls ((async_setup_entry Sample.entry;; async_setup_entry Sample.entry)
                Sample.at_setup).2
    = [Call_async_dispatcher_connect "guardian_paired_sensor_coordinator_added_ABCDEF"
         (Closure_add_new_paired_sensor Sample.entry);
       Call_async_add_entities
         (valve_sensors_for Sample.entry Sample.coordinators
            ++ paired_sensors_for Sample.entry 2 ++ paired_sensors_for Sample.entry 3)
         false;
       Call_async_dispatcher_connect "guardian_paired_sensor_coordinator_added_ABCDEF"
         (Closure_add_new_paired_sensor Sample.entry);
       Call_async_add_entities
         (valve_sensors_for Sample.entry Sample.coordinators
            ++ paired_sensors_for Sample.entry 2 ++ paired_sensors_for Sample.entry 3)
         false].
Proof.
  exact (proj1 (proj2 (X17_setup_twice_duplicates Sample.entry Sample.at_setup []
                         (VStr "ABCDEF") Sample.coordinators Sample.paired_by_uid
                         eq_refl eq_refl eq_refl eq_refl))).
Defined.

End Runs.
